(** * Aegent: keyword router, shared memory and agent tools

    A shallow embedding of the JavaScript demonstration scripts of the
    repository:

    - [multi-agent-no-tools.js]: four agents and the keyword router
      [MultiAgentSystem.processQuery], the example driver
      [runInteractiveSession] and [main] with its [try]/[catch];
    - [multi-agent-system.js], the tool-equipped variant of the same script
      (agents with tools, the router calling [agent.run({...})]);
    - [advanced-multi-agent.js]: [SharedMemory], the [communicate_with_agent]
      and [access_memory] tools.

    JavaScript strings are sequences of UTF-16 code units; asynchronous
    functions are embedded in a monad that threads the outside world (the LLM
    service behind the SDK, the clock), propagates rejections of awaited
    promises as thrown errors, and records what the program did (SDK calls
    issued and settled, console lines) as a trace. *)

From stdpp Require Import gmap list.
From Stdlib Require Import String Ascii NArith.
From Stdlib Require QArith Qround.

Set Default Proof Using "Type".
Local Open Scope N_scope.
Local Open Scope nat_scope.

(** ** JavaScript strings *)

(** A string value is its sequence of UTF-16 code units. *)
Definition jsstring : Type := list N.

(** Source literals made of ASCII characters only. *)
Definition js (s : string) : jsstring :=
  List.map N_of_ascii (list_ascii_of_string s).
Arguments js _%_string.

(** Characters of the source literals that are not plain ASCII text. *)
Definition dq : jsstring := [34%N].                (* the double quote *)
Definition nl : jsstring := [10%N].                (* \n *)
Definition robot : jsstring := [55358%N; 56598%N].      (* U+1F916 *)
Definition clipboard : jsstring := [55357%N; 56523%N].  (* U+1F4CB *)
Definition memo : jsstring := [55357%N; 56541%N].       (* U+1F4DD *)
Definition cross : jsstring := [10060%N].               (* U+274C *)
Definition bulb : jsstring := [55357%N; 56481%N].       (* U+1F4A1 *)

(** [s.startsWith(needle)]: [needle] is an initial segment of [s]. *)
Fixpoint startsWith (s needle : jsstring) {struct needle} : bool :=
  match needle, s with
  | [], _ => true
  | _ :: _, [] => false
  | c :: needle', d :: s' => N.eqb c d && startsWith s' needle'
  end.

(** [s.includes(needle)]: [needle] occurs in [s] at some index. *)
Fixpoint includes (s needle : jsstring) : bool :=
  startsWith s needle ||
  match s with
  | [] => false
  | _ :: s' => includes s' needle
  end.

(** The character class [\d] of a regular expression without the [u] and
    [i] flags: the code units of [0] to [9]. *)
Definition isDigit (c : N) : bool := N.leb 48 c && N.leb c 57.

(** [/\d/.test(s)]: the pattern is unanchored and the literal has no [g] or
    [y] flag, so the test succeeds exactly when some code unit is a digit. *)
Definition regex_digit_test (s : jsstring) : bool := existsb isDigit s.

(** ['='.repeat(n)] and friends. *)
Fixpoint repeat_str (s : jsstring) (n : nat) : jsstring :=
  match n with
  | O => []
  | S n' => s ++ repeat_str s n'
  end.

(** [needle] is a substring of [s]. *)
Definition contains (s needle : jsstring) : Prop :=
  ∃ pre post, s = pre ++ needle ++ post.

(** ** Values exchanged with the SDK *)

(** [new Agent({ name, instructions, tools })]; a tool is recorded by its
    registered name. *)
Record Agent := mkAgent {
  name : jsstring;
  instructions : jsstring;
  tools : list jsstring
}.

(** The second argument of [run(agent, input)] or the argument of
    [agent.run(input)]: a string, or an object literal with one string
    property, as in [{ topic: query }]. *)
Inductive Input :=
| Text (s : jsstring)
| Obj (key : jsstring) (value : jsstring).

(** A thrown value, as far as the scripts look at it: they only ever read
    its [message]. A [catch] receives any value: an [Error] (or any object
    whose [message] is a string); a value with properties but no [message],
    such as a thrown string, number or plain object, for which the property
    reads as [undefined]; or [undefined] and [null], which have no
    properties at all. *)
Inductive JsError :=
| mkError (message : jsstring)
| Messageless
| Nullish (null : bool).   (* [null] when set, [undefined] otherwise *)

(** How an awaited promise settles. *)
Inductive Settled (R : Type) :=
| Fulfilled (r : R)
| Rejected (e : JsError).
Arguments Fulfilled {R} r.
Arguments Rejected {R} e.

(** What a run of a script does, in order. *)
Inductive Event (R : Type) :=
| EvCall (a : Agent) (i : Input)      (* an SDK run is started *)
| EvSettle (o : Settled R)            (* the awaited run has settled *)
| EvLog (args : list jsstring)        (* console.log(...args) *)
| EvError (args : list jsstring).     (* console.error(...args) *)
Arguments EvCall {R} a i.
Arguments EvSettle {R} o.
Arguments EvLog {R} args.
Arguments EvError {R} args.

(** The object returned by [processQuery]. *)
Record QueryResult (R : Type) := mkQueryResult {
  query : jsstring;
  coordinatorAnalysis : R;
  agentResponses : gmap jsstring R
}.
Arguments mkQueryResult {R}.
Arguments query {R}.
Arguments coordinatorAnalysis {R}.
Arguments agentResponses {R}.

(** ** The runtime outside the scripts

    Everything the scripts call but do not define: the state of the outside
    world, the value a run resolves to, Unicode lowercasing, the SDK entry
    point (whether written [run(agent, input)] or [agent.run(input)]), the
    string conversion of a template literal, [JSON.stringify(v, null, 2)]
    (which may throw) and [new Date().toISOString()]. *)
Class Runtime := {
  World : Type;
  Response : Type;
  toLowerCase : jsstring → jsstring;
  run : Agent → Input → World → Settled Response * World;
  ToString : Response → jsstring;
  JSON_stringify : QueryResult Response → JsError + jsstring;
  Date_toISOString : World → jsstring
}.

(** ** The monad of asynchronous functions *)

Inductive Completion (A : Type) :=
| Normal (a : A)
| Throw (e : JsError).
Arguments Normal {A} a.
Arguments Throw {A} e.

Section Monad.
Context `{rt : Runtime}.

(** A computation over a state [S] finishes normally or by a throw, leaves
    a new state and the events it produced. *)
Definition M (S A : Type) : Type := S → Completion A * S * list (Event Response).

Definition ret {S A} (a : A) : M S A := λ s, (Normal a, s, []).

Definition throw {S A} (e : JsError) : M S A := λ s, (Throw e, s, []).

Definition bind {S A B} (m : M S A) (k : A → M S B) : M S B :=
  λ s, match m s with
       | (Normal a, s1, t1) =>
           match k a s1 with
           | (c, s2, t2) => (c, s2, t1 ++ t2)
           end
       | (Throw e, s1, t1) => (Throw e, s1, t1)
       end.

(** [try { body } catch (error) { handler }]. *)
Definition try_catch {S A} (body : M S A) (handler : JsError → M S A) : M S A :=
  λ s, match body s with
       | (Normal a, s1, t1) => (Normal a, s1, t1)
       | (Throw e, s1, t1) =>
           match handler e s1 with
           | (c, s2, t2) => (c, s2, t1 ++ t2)
           end
       end.

Definition console_log {S} (args : list jsstring) : M S unit :=
  λ s, (Normal tt, s, [EvLog args]).

Definition console_error {S} (args : list jsstring) : M S unit :=
  λ s, (Normal tt, s, [EvError args]).

(** [await run(agent, input)]: the function is suspended until the promise
    settles; a rejection is rethrown at the [await]. *)
Definition await_run (a : Agent) (i : Input) : M World Response :=
  λ w, match run a i w with
       | (Fulfilled r, w') => (Normal r, w', [EvCall a i; EvSettle (Fulfilled r)])
       | (Rejected e, w') => (Throw e, w', [EvCall a i; EvSettle (Rejected e)])
       end.
End Monad.

Section Thrown.
Context `{rt : Runtime}.

(** [error.message]: reading a property of [undefined] or [null] throws a
    [TypeError] (the messages are those of V8). *)
Definition read_message {S} (error : JsError) : M S (option jsstring) :=
  match error with
  | mkError message => ret (Some message)
  | Messageless => ret None
  | Nullish null =>
      throw (mkError (js "Cannot read properties of "
                      ++ (if null then js "null" else js "undefined")
                      ++ js " (reading 'message')"))
  end.

(** [message.includes(needle)] on what [error.message] gave: [undefined]
    has no [includes]. *)
Definition message_includes {S} (message : option jsstring) (needle : jsstring)
  : M S bool :=
  match message with
  | Some text => ret (includes text needle)
  | None =>
      throw (mkError (js "Cannot read properties of undefined (reading 'includes')"))
  end.
End Thrown.

(** How the console shows what [error.message] gave. *)
Definition shown (message : option jsstring) : jsstring :=
  match message with
  | Some text => text
  | None => js "undefined"
  end.

Declare Scope js_scope.
Delimit Scope js_scope with js.
Notation "'let*' x ':=' m 'in' k" := (bind m (λ x, k))
  (at level 10, x name, m at level 100, k at level 200, only parsing) : js_scope.
Notation "m '>>' k" := (bind m (λ _, k))
  (at level 100, k at level 200, right associativity, only parsing) : js_scope.
Local Open Scope js_scope.

(** ** multi-agent-no-tools.js *)

Module NoTools.

(** Agent 1: History Expert *)
Definition historyAgent : Agent := {|
  name := js "History Expert";
  instructions := js "You are a knowledgeable history expert. Provide accurate historical information and fun facts. When asked about history, give detailed and interesting responses.";
  tools := []
|}.

(** Agent 2: Science Expert *)
Definition scienceAgent : Agent := {|
  name := js "Science Expert";
  instructions := js "You are a science expert. Provide accurate scientific information and interesting facts. When asked about science, give detailed and engaging responses.";
  tools := []
|}.

(** Agent 3: Math Expert *)
Definition mathAgent : Agent := {|
  name := js "Math Expert";
  instructions := js "You are a mathematics expert. Help with calculations and mathematical concepts. When asked about math, provide clear explanations and step-by-step solutions.";
  tools := []
|}.

(** Agent 4: Coordinator Agent *)
Definition coordinatorAgent : Agent := {|
  name := js "Coordinator";
  instructions :=
    js "You are a coordinator that can delegate tasks to specialized agents:" ++ nl ++
    js "  - History Expert: For historical questions and facts" ++ nl ++
    js "  - Science Expert: For scientific questions and facts  " ++ nl ++
    js "  - Math Expert: For mathematical calculations and concepts" ++ nl ++
    js "  " ++ nl ++
    js "  When a user asks a question, determine which agent(s) would be best suited to answer it." ++ nl ++
    js "  You can also combine responses from multiple agents when appropriate.";
  tools := []
|}.

(** The object literal assigned to [this.agents]; the class reads its four
    properties by name only. *)
Record AgentTable := {
  history : Agent;
  science : Agent;
  math : Agent;
  coordinator : Agent
}.

Record MultiAgentSystem := { agents : AgentTable }.

(** [constructor()] *)
Definition new_MultiAgentSystem : MultiAgentSystem := {|
  agents := {|
    history := historyAgent;
    science := scienceAgent;
    math := mathAgent;
    coordinator := coordinatorAgent
  |}
|}.

Section Script.
Context `{rt : Runtime}.

(** [async processQuery(query)] *)
Definition processQuery (this : MultiAgentSystem) (query : jsstring)
  : M World (QueryResult Response) :=
  console_log [nl ++ robot ++ js " Processing query: " ++ dq ++ query ++ dq] >>
  (* First, let the coordinator analyze the query *)
  let* coordinatorResponse :=
    await_run (coordinator (agents this))
      (Text (js "Analyze this query and determine which agent(s) should handle it: "
             ++ dq ++ query ++ dq)) in
  console_log [clipboard ++ js " Coordinator analysis: " ++ ToString coordinatorResponse] >>
  (* Determine which agents to use based on the query *)
  let responses : gmap jsstring Response := ∅ in
  let* responses :=
    if includes (toLowerCase query) (js "history")
       || includes (toLowerCase query) (js "historical")
    then let* r := await_run (history (agents this)) (Text query) in
         ret (<[js "history" := r]> responses)
    else ret responses in
  let* responses :=
    if includes (toLowerCase query) (js "science")
       || includes (toLowerCase query) (js "scientific")
    then let* r := await_run (science (agents this)) (Text query) in
         ret (<[js "science" := r]> responses)
    else ret responses in
  let* responses :=
    if includes (toLowerCase query) (js "math")
       || includes (toLowerCase query) (js "calculate")
       || includes (toLowerCase query) (js "equation")
       || regex_digit_test query
    then let* r := await_run (math (agents this)) (Text query) in
         ret (<[js "math" := r]> responses)
    else ret responses in
  (* If no specific agent was triggered, use the coordinator *)
  let* responses :=
    if Nat.eqb (size responses) 0
    then let* r := await_run (coordinator (agents this)) (Text query) in
         ret (<[js "coordinator" := r]> responses)
    else ret responses in
  ret {| query := query;
         coordinatorAnalysis := coordinatorResponse;
         agentResponses := responses |}.

(** [JSON.stringify(result, null, 2)], which throws when the value cannot be
    serialised. *)
Definition stringify (result : QueryResult Response) : M World jsstring :=
  match JSON_stringify result with
  | inr text => ret text
  | inl e => throw e
  end.

(** The example queries of [runInteractiveSession]. *)
Definition exampleQueries : list jsstring :=
  [ js "Tell me a fun history fact";
    js "What's an interesting science fact?";
    js "Explain how to solve a quadratic equation";
    js "Give me both a history and science fact" ].

(** [for (const query of queries) { ... }] with the body of the loop of
    [runInteractiveSession]. *)
Fixpoint session_loop (this : MultiAgentSystem) (queries : list jsstring)
  : M World unit :=
  match queries with
  | [] => ret tt
  | query :: rest =>
      let* result := processQuery this query in
      console_log [nl ++ memo ++ js " Results:"] >>
      let* text := stringify result in
      console_log [text] >>
      console_log [nl ++ repeat_str (js "=") 50] >>
      session_loop this rest
  end.

(** [async runInteractiveSession()] *)
Definition runInteractiveSession (this : MultiAgentSystem) : M World unit :=
  console_log [robot ++ js " Multi-Agent System Started!"] >>
  console_log [js "Available agents: History Expert, Science Expert, Math Expert, Coordinator"] >>
  console_log [js "Note: This version runs without tools due to SDK compatibility issues"] >>
  console_log [js "Type " ++ dq ++ js "exit" ++ dq ++ js " to quit" ++ nl] >>
  session_loop this exampleQueries.

(** [async function main()] *)
Definition main : M World unit :=
  try_catch
    (let multiAgentSystem := new_MultiAgentSystem in
     runInteractiveSession multiAgentSystem)
    (λ error,
      let* message := read_message error in
      console_error [cross ++ js " Error:"; shown message] >>
      let* message := read_message error in
      let* found := message_includes message (js "OPENAI_API_KEY") in
      if found
      then
        console_log [nl ++ bulb ++ js " To run this example, you need to set your OpenAI API key:"] >>
        console_log [js "export OPENAI_API_KEY=" ++ dq ++ js "your-api-key-here" ++ dq] >>
        console_log [js "Or create a .env file with: OPENAI_API_KEY=your-api-key-here"]
      else ret tt).

End Script.
End NoTools.

(** ** multi-agent-system.js: the same script, its agents carrying tools *)

Module WithTools.

(** Agent 1: History Expert, with the tool [history_fun_fact]. *)
Definition historyAgent : Agent := {|
  name := js "History Expert";
  instructions := js "You are a knowledgeable history expert. Provide accurate historical information and fun facts.";
  tools := [js "history_fun_fact"]
|}.

(** Agent 2: Science Expert, with the tool [science_fact]. *)
Definition scienceAgent : Agent := {|
  name := js "Science Expert";
  instructions := js "You are a science expert. Provide accurate scientific information and interesting facts.";
  tools := [js "science_fact"]
|}.

(** Agent 3: Math Expert, with the tool [calculate]. *)
Definition mathAgent : Agent := {|
  name := js "Math Expert";
  instructions := js "You are a mathematics expert. Help with calculations and mathematical concepts.";
  tools := [js "calculate"]
|}.

(** Agent 4: Coordinator Agent; same configuration as in the other script. *)
Definition coordinatorAgent : Agent := NoTools.coordinatorAgent.

Definition new_MultiAgentSystem : NoTools.MultiAgentSystem := {|
  NoTools.agents := {|
    NoTools.history := historyAgent;
    NoTools.science := scienceAgent;
    NoTools.math := mathAgent;
    NoTools.coordinator := coordinatorAgent
  |}
|}.

Section Script.
Context `{rt : Runtime}.
Import NoTools.

(** [async processQuery(query)]: the agents are run through their own [run]
    method, the specialists on an object wrapping the query. *)
Definition processQuery (this : MultiAgentSystem) (query : jsstring)
  : M World (QueryResult Response) :=
  console_log [nl ++ robot ++ js " Processing query: " ++ dq ++ query ++ dq] >>
  (* First, let the coordinator analyze the query *)
  let* coordinatorResponse :=
    await_run (coordinator (agents this))
      (Text (js "Analyze this query and determine which agent(s) should handle it: "
             ++ dq ++ query ++ dq)) in
  console_log [clipboard ++ js " Coordinator analysis: " ++ ToString coordinatorResponse] >>
  (* Determine which agents to use based on the query *)
  let responses : gmap jsstring Response := ∅ in
  let* responses :=
    if includes (toLowerCase query) (js "history")
       || includes (toLowerCase query) (js "historical")
    then let* r := await_run (history (agents this)) (Obj (js "topic") query) in
         ret (<[js "history" := r]> responses)
    else ret responses in
  let* responses :=
    if includes (toLowerCase query) (js "science")
       || includes (toLowerCase query) (js "scientific")
    then let* r := await_run (science (agents this)) (Obj (js "field") query) in
         ret (<[js "science" := r]> responses)
    else ret responses in
  let* responses :=
    if includes (toLowerCase query) (js "math")
       || includes (toLowerCase query) (js "calculate")
       || includes (toLowerCase query) (js "equation")
       || regex_digit_test query
    then let* r := await_run (math (agents this)) (Obj (js "expression") query) in
         ret (<[js "math" := r]> responses)
    else ret responses in
  (* If no specific agent was triggered, use the coordinator *)
  let* responses :=
    if Nat.eqb (size responses) 0
    then let* r := await_run (coordinator (agents this)) (Text query) in
         ret (<[js "coordinator" := r]> responses)
    else ret responses in
  ret {| query := query;
         coordinatorAnalysis := coordinatorResponse;
         agentResponses := responses |}.

End Script.
End WithTools.

(** ** advanced-multi-agent.js: shared memory and the two tools *)

Module Advanced.
Section Script.
Context `{rt : Runtime}.

(** The values the script stores: [undefined] (an optional argument left
    out), a string, or the object literal [{ message, response }]. *)
Inductive Value :=
| Undefined
| Str (s : jsstring)
| Exchange (message : jsstring) (response : Response).

(** [ToBoolean]: [undefined] and the empty string are falsy. *)
Definition ToBoolean (v : Value) : bool :=
  match v with
  | Undefined => false
  | Str [] => false
  | Str (_ :: _) => true
  | Exchange _ _ => true
  end.

(** [a || b] *)
Definition or_else (a b : Value) : Value := if ToBoolean a then a else b.

(** The string conversion of a template literal. *)
Definition Value_ToString (v : Value) : jsstring :=
  match v with
  | Undefined => js "undefined"
  | Str s => s
  | Exchange _ _ => js "[object Object]"
  end.

(** A [Map] with string keys: its entries in insertion order. *)
Definition JsMap : Type := list (jsstring * Value).

(** [Map.prototype.set]: the value of an entry with the same key is
    replaced in place, otherwise a new entry is appended. *)
Fixpoint Map_set (m : JsMap) (key : jsstring) (value : Value) : JsMap :=
  match m with
  | [] => [(key, value)]
  | (k, v) :: m' =>
      if decide (k = key) then (k, value) :: m'
      else (k, v) :: Map_set m' key value
  end.

(** [Map.prototype.get]: the value of the entry with that key, or
    [undefined]. *)
Fixpoint Map_get (m : JsMap) (key : jsstring) : Value :=
  match m with
  | [] => Undefined
  | (k, v) :: m' => if decide (k = key) then v else Map_get m' key
  end.

(** The keys of a map, in insertion order. *)
Definition Map_keys (m : JsMap) : list jsstring := m.*1.

(** An element of [conversationHistory]. *)
Record HistoryEntry := {
  agent : jsstring;
  message : Value;
  timestamp : jsstring
}.

(** [class SharedMemory] *)
Record SharedMemory := {
  data : JsMap;
  conversationHistory : list HistoryEntry
}.

(** [constructor()] *)
Definition new_SharedMemory : SharedMemory :=
  {| data := []; conversationHistory := [] |}.

(** [set(key, value)] *)
Definition set (this : SharedMemory) (key : jsstring) (value : Value) : SharedMemory :=
  {| data := Map_set (data this) key value;
     conversationHistory := conversationHistory this |}.

(** [get(key)] *)
Definition get (this : SharedMemory) (key : jsstring) : Value :=
  Map_get (data this) key.

(** [addToHistory(agent, message)], run when the outside world is [w]. *)
Definition addToHistory (this : SharedMemory) (agent : jsstring) (message : Value)
    (w : World) : SharedMemory :=
  {| data := data this;
     conversationHistory :=
       conversationHistory this ++
       [ {| agent := agent; message := message; timestamp := Date_toISOString w |} ] |}.

(** [getHistory()] *)
Definition getHistory (this : SharedMemory) : list HistoryEntry :=
  conversationHistory this.

(** The state the tools run in: the outside world and the one
    [SharedMemory] object their context refers to. *)
Record Heap := {
  world : World;
  sharedMemory : SharedMemory
}.

(** The methods of the shared object, called from asynchronous code. *)
Definition sharedMemory_set (key : jsstring) (value : Value) : M Heap unit :=
  λ h, (Normal tt, {| world := world h; sharedMemory := set (sharedMemory h) key value |}, []).

Definition sharedMemory_get (key : jsstring) : M Heap Value :=
  λ h, (Normal (get (sharedMemory h) key), h, []).

Definition sharedMemory_addToHistory (agent : jsstring) (message : Value) : M Heap unit :=
  λ h, (Normal tt,
        {| world := world h;
           sharedMemory := addToHistory (sharedMemory h) agent message (world h) |},
        []).

(** The names every object literal inherits from [Object.prototype]. *)
Definition Object_prototype_names : list jsstring :=
  [ js "constructor"; js "__proto__"; js "hasOwnProperty"; js "isPrototypeOf";
    js "propertyIsEnumerable"; js "toLocaleString"; js "toString"; js "valueOf";
    js "__defineGetter__"; js "__defineSetter__"; js "__lookupGetter__";
    js "__lookupSetter__" ].

(** What [agents[key]] evaluates to. *)
Inductive Property :=
| PUndefined
| PAgent (a : Agent)
| PInherited (key : jsstring).   (* a function or object of [Object.prototype] *)

(** [agents[key]] on an object literal: an own property, otherwise the
    property of that name found along the prototype chain, otherwise
    [undefined]. *)
Definition Get (agents : gmap jsstring Agent) (key : jsstring) : Property :=
  match agents !! key with
  | Some a => PAgent a
  | None =>
      if bool_decide (key ∈ Object_prototype_names) then PInherited key
      else PUndefined
  end.

(** [await target.run(message)]: an agent is run through the SDK; the
    inherited values have no [run] property, and calling [undefined]
    throws a [TypeError] (the messages are those of V8). *)
Definition target_run (target : Property) (message : jsstring) : M Heap Response :=
  match target with
  | PAgent a =>
      λ h, match await_run a (Text message) (world h) with
           | (c, w', t) => (c, {| world := w'; sharedMemory := sharedMemory h |}, t)
           end
  | PInherited _ => throw (mkError (js "target.run is not a function"))
  | PUndefined =>
      throw (mkError (js "Cannot read properties of undefined (reading 'run')"))
  end.

(** The agent system of a tool context: its [agents] object. *)
Record AgentSystem := { agents : gmap jsstring Agent }.

(** [communicate_with_agent]: [execute({ targetAgent, message },
    { sharedMemory, agentSystem })] *)
Definition communicateTool_execute (targetAgent message : jsstring)
    (agentSystem : AgentSystem) : M Heap jsstring :=
  let target := Get (agents agentSystem) (toLowerCase targetAgent) in
  match target with
  | PUndefined =>
      ret (js "Error: Agent " ++ dq ++ targetAgent ++ dq ++ js " not found")
  | _ =>
      let* response := target_run target message in
      sharedMemory_addToHistory targetAgent (Exchange message response) >>
      ret (js "Response from " ++ targetAgent ++ js ": " ++ ToString response)
  end.

(** [access_memory]: [execute({ action, key, value }, { sharedMemory })];
    the function returns [undefined] when the action is neither string. *)
Definition memoryTool_execute (action key : jsstring) (value : Value) : M Heap Value :=
  if decide (action = js "read") then
    let* found := sharedMemory_get key in
    ret (Str (js "Memory value for " ++ dq ++ key ++ dq ++ js ": "
              ++ Value_ToString (or_else found (Str (js "not found")))))
  else if decide (action = js "write") then
    sharedMemory_set key value >>
    ret (Str (js "Stored " ++ dq ++ Value_ToString value ++ dq
              ++ js " with key " ++ dq ++ key ++ dq))
  else ret Undefined.

End Script.

(** The four agents; all carry both tools. *)
Definition researchAgent : Agent := {|
  name := js "Researcher";
  instructions :=
    js "You are a research agent specialized in gathering and analyzing information." ++ nl ++
    js "  You can communicate with other agents to get specialized information." ++ nl ++
    js "  Always store your findings in shared memory for other agents to access.";
  tools := [js "communicate_with_agent"; js "access_memory"]
|}.

Definition analysisAgent : Agent := {|
  name := js "Analyst";
  instructions :=
    js "You are a data analysis agent that processes information and provides insights." ++ nl ++
    js "  You can read from shared memory and communicate with other agents for additional data." ++ nl ++
    js "  Focus on providing analytical insights and conclusions.";
  tools := [js "communicate_with_agent"; js "access_memory"]
|}.

Definition writerAgent : Agent := {|
  name := js "Writer";
  instructions :=
    js "You are a report writing agent that creates comprehensive reports." ++ nl ++
    js "  You can read from shared memory and communicate with other agents for additional information." ++ nl ++
    js "  Focus on creating well-structured, clear reports based on available data.";
  tools := [js "communicate_with_agent"; js "access_memory"]
|}.

Definition managerAgent : Agent := {|
  name := js "Manager";
  instructions :=
    js "You are a project manager that coordinates complex tasks between multiple agents." ++ nl ++
    js "  You can delegate work to specialized agents and synthesize their outputs." ++ nl ++
    js "  Always ensure the final result is comprehensive and well-organized.";
  tools := [js "communicate_with_agent"; js "access_memory"]
|}.

(** The [agents] object built by [AdvancedMultiAgentSystem]'s constructor. *)
Definition new_AdvancedMultiAgentSystem : AgentSystem := {|
  agents :=
    <[js "researcher" := researchAgent]>
    (<[js "analyst" := analysisAgent]>
    (<[js "writer" := writerAgent]>
    (<[js "manager" := managerAgent]> ∅)))
|}.

End Advanced.

(** ** Observations on a run *)

Section Observations.
Context {R : Type}.

(** The SDK runs a trace starts, in order. *)
Fixpoint calls (tr : list (Event R)) : list (Agent * Input) :=
  match tr with
  | [] => []
  | EvCall a i :: rest => (a, i) :: calls rest
  | _ :: rest => calls rest
  end.

(** The runs of a trace with the way each one settled. *)
Fixpoint exchanges (tr : list (Event R)) : list (Agent * Input * Settled R) :=
  match tr with
  | [] => []
  | EvCall a i :: rest =>
      match rest with
      | EvSettle o :: rest' => (a, i, o) :: exchanges rest'
      | _ => exchanges rest
      end
  | _ :: rest => exchanges rest
  end.

(** At most one run is in flight at any time: a run starts only when none is
    pending ([busy = false]) and only a pending run settles. *)
Fixpoint overlap_free (busy : bool) (tr : list (Event R)) : bool :=
  match tr with
  | [] => true
  | EvCall _ _ :: rest => negb busy && overlap_free true rest
  | EvSettle _ :: rest => busy && overlap_free false rest
  | _ :: rest => overlap_free busy rest
  end.

(** What follows the first rejected run of a trace. *)
Fixpoint after_rejection (tr : list (Event R)) : list (Event R) :=
  match tr with
  | [] => []
  | EvSettle (Rejected _) :: rest => rest
  | _ :: rest => after_rejection rest
  end.

(** Some run of the trace was rejected. *)
Fixpoint rejected (tr : list (Event R)) : bool :=
  match tr with
  | [] => false
  | EvSettle (Rejected _) :: _ => true
  | _ :: rest => rejected rest
  end.

(** An agent of that name is run somewhere in the trace. *)
Definition invoked (n : jsstring) (tr : list (Event R)) : Prop :=
  ∃ a i, (a, i) ∈ calls tr ∧ name a = n.

(** The response of the last fulfilled run of an agent of that name. *)
Definition response_from (n : jsstring) (tr : list (Event R)) : option R :=
  last (omap (λ x, match x with
                   | (a, _, Fulfilled r) => if decide (name a = n) then Some r else None
                   | _ => None
                   end) (exchanges tr)).
End Observations.

(** ** The two routers side by side *)

Inductive Script := NoToolsScript | WithToolsScript.

Definition systemOf (v : Script) : NoTools.MultiAgentSystem :=
  match v with
  | NoToolsScript => NoTools.new_MultiAgentSystem
  | WithToolsScript => WithTools.new_MultiAgentSystem
  end.

(** How each script hands the query to a specialist. *)
Definition specialistInput (v : Script) (field : string) (q : jsstring) : Input :=
  match v with
  | NoToolsScript => Text q
  | WithToolsScript => Obj (js field) q
  end.

(** The prompt of the coordinator's analysis. *)
Definition analysisInput (q : jsstring) : Input :=
  Text (js "Analyze this query and determine which agent(s) should handle it: "
        ++ dq ++ q ++ dq).

(** A code unit of [q] is one of the decimal digits. *)
Definition has_digit (q : jsstring) : Prop := ∃ c, c ∈ q ∧ (48 ≤ c ≤ 57)%N.

(** The three routing tests, on the lowercased and on the raw query. *)
Definition historyMatch (lowered : jsstring) : bool :=
  includes lowered (js "history") || includes lowered (js "historical").

Definition scienceMatch (lowered : jsstring) : bool :=
  includes lowered (js "science") || includes lowered (js "scientific").

Definition mathMatch (lowered raw : jsstring) : bool :=
  includes lowered (js "math") || includes lowered (js "calculate")
  || includes lowered (js "equation") || regex_digit_test raw.

(** The named buckets a query falls into. *)
Definition buckets (lowered raw : jsstring) : gset jsstring :=
  (if historyMatch lowered then {[ js "history" ]} else ∅) ∪
  (if scienceMatch lowered then {[ js "science" ]} else ∅) ∪
  (if mathMatch lowered raw then {[ js "math" ]} else ∅) ∪
  (if historyMatch lowered || scienceMatch lowered || mathMatch lowered raw
   then ∅ else {[ js "coordinator" ]}).

(** The runs a query calls for, in the order of the source. *)
Definition plan (v : Script) (lowered raw : jsstring) : list (Agent * Input) :=
  let table := NoTools.agents (systemOf v) in
  [(NoTools.coordinator table, analysisInput raw)] ++
  (if historyMatch lowered
   then [(NoTools.history table, specialistInput v "topic" raw)] else []) ++
  (if scienceMatch lowered
   then [(NoTools.science table, specialistInput v "field" raw)] else []) ++
  (if mathMatch lowered raw
   then [(NoTools.math table, specialistInput v "expression" raw)] else []) ++
  (if historyMatch lowered || scienceMatch lowered || mathMatch lowered raw
   then [] else [(NoTools.coordinator table, Text raw)]).

Section Routers.
Context `{rt : Runtime}.

Definition processQueryOf (v : Script) (q : jsstring) : M World (QueryResult Response) :=
  match v with
  | NoToolsScript => NoTools.processQuery NoTools.new_MultiAgentSystem q
  | WithToolsScript => WithTools.processQuery WithTools.new_MultiAgentSystem q
  end.

(** What the [catch] block of [main] prints for an error. *)
Definition setup_instructions : list (Event Response) :=
  [ EvLog [nl ++ bulb ++ js " To run this example, you need to set your OpenAI API key:"];
    EvLog [js "export OPENAI_API_KEY=" ++ dq ++ js "your-api-key-here" ++ dq];
    EvLog [js "Or create a .env file with: OPENAI_API_KEY=your-api-key-here"] ].

Definition error_line (message : jsstring) : Event Response :=
  EvError [cross ++ js " Error:"; message].
End Routers.

(** ** Operations on a shared memory *)

Section MemoryOperations.
Context `{rt : Runtime}.
Import Advanced.

(** A call of one of the four methods of [SharedMemory]. *)
Inductive Operation :=
| OpSet (key : jsstring) (value : Value)
| OpGet (key : jsstring)
| OpAddToHistory (agent : jsstring) (message : Value)
| OpGetHistory.

(** What a method call returns. *)
Inductive Returned :=
| RetUndefined
| RetValue (v : Value)
| RetHistory (log : list HistoryEntry).

(** The call [op] on [this] when the outside world is [w]. *)
Definition perform (op : Operation) (w : World) (this : SharedMemory)
  : Returned * SharedMemory :=
  match op with
  | OpSet key value => (RetUndefined, set this key value)
  | OpGet key => (RetValue (get this key), this)
  | OpAddToHistory agent message => (RetUndefined, addToHistory this agent message w)
  | OpGetHistory => (RetHistory (getHistory this), this)
  end.

(** The entry a call adds to the log. *)
Definition appended (op : Operation) (w : World) : list HistoryEntry :=
  match op with
  | OpAddToHistory agent message =>
      [ {| agent := agent; message := message; timestamp := Date_toISOString w |} ]
  | _ => []
  end.

(** A sequence of calls, each with the world it runs in. *)
Fixpoint perform_all (ops : list (Operation * World)) (this : SharedMemory)
  : SharedMemory :=
  match ops with
  | [] => this
  | (op, w) :: rest => perform_all rest (perform op w this).2
  end.

(** The text [access_memory] returns for a key it reports as missing. *)
Definition not_found_message (key : jsstring) : Value :=
  Str (js "Memory value for " ++ dq ++ key ++ dq ++ js ": not found").
End MemoryOperations.

(** ** Concrete runtimes

    Small runtimes on which the scripts can be evaluated. The world counts
    the runs settled so far, a response is a string. *)

(** Lowercasing of the letters [A] to [Z]; it agrees with
    [String.prototype.toLowerCase] on strings of ASCII code units. *)
Definition toLowerCase_ascii (s : jsstring) : jsstring :=
  List.map (λ c, if N.leb 65 c && N.leb c 90 then (c + 32)%N else c) s.

(** Every run is answered with the name of the agent. *)
Definition echo_runtime : Runtime := {|
  World := nat;
  Response := jsstring;
  toLowerCase := toLowerCase_ascii;
  run := λ a _ w, (Fulfilled (name a), S w);
  ToString := λ r, r;
  JSON_stringify := λ r, inr (query r);
  Date_toISOString := λ _, js "2025-01-01T00:00:00.000Z"
|}.

(** A fresh shared memory in the initial world of that runtime. *)
Definition fresh_heap : Advanced.Heap (rt := echo_runtime) :=
  @Advanced.Build_Heap echo_runtime 0 (@Advanced.new_SharedMemory echo_runtime).

(** Every run is rejected for want of an API key. *)
Definition keyless_runtime : Runtime := {|
  World := nat;
  Response := jsstring;
  toLowerCase := toLowerCase_ascii;
  run := λ _ _ w, (Rejected (mkError (js "The OPENAI_API_KEY environment variable is missing")), S w);
  ToString := λ r, r;
  JSON_stringify := λ r, inr (query r);
  Date_toISOString := λ _, js "2025-01-01T00:00:00.000Z"
|}.

(** The first run is answered, every later one rejected on a timeout. *)
Definition flaky_runtime : Runtime := {|
  World := nat;
  Response := jsstring;
  toLowerCase := toLowerCase_ascii;
  run := λ a _ w,
    match w with
    | O => (Fulfilled (name a), S w)
    | S _ => (Rejected (mkError (js "Request timed out")), S w)
    end;
  ToString := λ r, r;
  JSON_stringify := λ r, inr (query r);
  Date_toISOString := λ _, js "2025-01-01T00:00:00.000Z"
|}.

(** Every run is rejected with [undefined], as by [Promise.reject()]. *)
Definition reasonless_runtime : Runtime := {|
  World := nat;
  Response := jsstring;
  toLowerCase := toLowerCase_ascii;
  run := λ _ _ w, (Rejected (Nullish false), S w);
  ToString := λ r, r;
  JSON_stringify := λ r, inr (query r);
  Date_toISOString := λ _, js "2025-01-01T00:00:00.000Z"
|}.

(** Every run is rejected with a value that has no [message], as by
    [Promise.reject("offline")]. *)
Definition stringly_runtime : Runtime := {|
  World := nat;
  Response := jsstring;
  toLowerCase := toLowerCase_ascii;
  run := λ _ _ w, (Rejected Messageless, S w);
  ToString := λ r, r;
  JSON_stringify := λ r, inr (query r);
  Date_toISOString := λ _, js "2025-01-01T00:00:00.000Z"
|}.

(** Every run is answered with the number of runs settled before it. *)
Definition counting_runtime : Runtime := {|
  World := nat;
  Response := nat;
  toLowerCase := toLowerCase_ascii;
  run := λ _ _ w, (Fulfilled w, S w);
  ToString := λ _, js "[object Object]";
  JSON_stringify := λ r, inr (query r);
  Date_toISOString := λ _, js "2025-01-01T00:00:00.000Z"
|}.

(** ** multi-agent-system.js: the tools of the agents and the driver *)

Module ToolScript.

(** More characters of the source literals that are not plain ASCII. *)
Definition rocket : jsstring := [55357%N; 56960%N].     (* U+1F680 *)
Definition magnifier : jsstring := [55357%N; 56589%N].  (* U+1F50D *)
Definition chart : jsstring := [55357%N; 56522%N].      (* U+1F4CA *)
Definition speech : jsstring := [55357%N; 56492%N].     (* U+1F4AC *)

Section Script.
Context `{rt : Runtime}.

(** [Math.random()]: the next number of the generator. A double is a dyadic
    rational; the two operations the tools apply to it, the product with the
    length 4 of an array and [Math.floor], are exact on doubles, so rational
    arithmetic computes what the script computes. *)
Variable Math_random : World → QArith_base.Q * World.

(** How [console.error] renders an error object. *)
Variable inspect : JsError → jsstring.

(** [facts[i]] for a number [i] with an integral value: the element, or
    [undefined] outside the array. *)
Definition element (facts : list jsstring) (i : Z) : Advanced.Value :=
  if decide (0 ≤ i)%Z
  then match facts !! Z.to_nat i with
       | Some fact => Advanced.Str fact
       | None => Advanced.Undefined
       end
  else Advanced.Undefined.

(** [facts[Math.floor(Math.random() * facts.length)]] *)
Definition randomFact (facts : list jsstring) : M World Advanced.Value :=
  λ w, match Math_random w with
       | (r, w') =>
           (Normal (element facts
                      (Qround.Qfloor
                         (QArith_base.Qmult r
                            (QArith_base.inject_Z (Z.of_nat (List.length facts)))))),
            w', [])
       end.

(** The facts of [history_fun_fact]. *)
Definition history_facts : list jsstring :=
  [ js "Sharks are older than trees.";
    js "The Great Wall of China is not visible from space with the naked eye.";
    js "Cleopatra lived closer to the moon landing than to the building of the Great Pyramid.";
    js "The shortest war in history lasted only 38 minutes." ].

(** [history_fun_fact]: [execute({ topic })] *)
Definition historyFunFact_execute (topic : jsstring) : M World Advanced.Value :=
  let facts := history_facts in
  let* randomFact := randomFact facts in
  ret (if Advanced.ToBoolean (Advanced.Str topic)
       then Advanced.Str (js "Fun fact about " ++ topic ++ js ": "
                          ++ Advanced.Value_ToString randomFact)
       else randomFact).

(** The facts of [science_fact]. *)
Definition science_facts : list jsstring :=
  [ js "A day on Venus is longer than its year.";
    js "The human body contains enough iron to make a 3-inch nail.";
    js "Lightning is hotter than the surface of the sun.";
    js "There are more atoms in a glass of water than glasses of water in all the oceans." ].

(** [science_fact]: [execute({ field })] *)
Definition scienceFact_execute (field : jsstring) : M World Advanced.Value :=
  let facts := science_facts in
  let* randomFact := randomFact facts in
  ret (if Advanced.ToBoolean (Advanced.Str field)
       then Advanced.Str (js "Science fact about " ++ field ++ js ": "
                          ++ Advanced.Value_ToString randomFact)
       else randomFact).

(** The example queries of [runInteractiveSession]. *)
Definition exampleQueries : list jsstring :=
  [ js "Tell me a fun history fact";
    js "What's an interesting science fact?";
    js "Calculate 15 * 23";
    js "Give me both a history and science fact" ].

(** The loop of [runInteractiveSession]. *)
Fixpoint session_loop (this : NoTools.MultiAgentSystem) (queries : list jsstring)
  : M World unit :=
  match queries with
  | [] => ret tt
  | query :: rest =>
      let* result := WithTools.processQuery this query in
      console_log [nl ++ memo ++ js " Results:"] >>
      let* text := NoTools.stringify result in
      console_log [text] >>
      console_log [nl ++ repeat_str (js "=") 50] >>
      session_loop this rest
  end.

(** [async runInteractiveSession()] *)
Definition runInteractiveSession (this : NoTools.MultiAgentSystem) : M World unit :=
  console_log [robot ++ js " Multi-Agent System Started!"] >>
  console_log [js "Available agents: History Expert, Science Expert, Math Expert, Coordinator"] >>
  console_log [js "Type " ++ dq ++ js "exit" ++ dq ++ js " to quit" ++ nl] >>
  session_loop this exampleQueries.

(** [async function main()]: no [try] here. *)
Definition main : M World unit :=
  let multiAgentSystem := WithTools.new_MultiAgentSystem in
  runInteractiveSession multiAgentSystem.

(** The statement [main().catch(console.error)], the last of the script.
    What the script evaluates before it on loading (the calls of [tool] and
    of the [Agent] constructor) belongs to the SDK and is not part of this
    statement. *)
Definition main_catch : M World unit :=
  try_catch main (λ error, console_error [inspect error]).

End Script.
End ToolScript.

(** ** advanced-multi-agent.js: the collaborative task *)

Module AdvancedTask.
Section Script.
Context `{rt : Runtime}.

(** The object [executeComplexTask] returns. *)
Record TaskResult := {
  task : jsstring;
  plan : Response;
  researchResult : Response;
  analysisResult : Response;
  report : Response;
  finalResult : Response;
  sharedMemory : Advanced.JsMap;
  conversationHistory : list Advanced.HistoryEntry
}.

(** [this.agents.<role>.run(input)]: the property of that name of the agents
    object, then its [run]. *)
Definition agent_run (this : Advanced.AgentSystem) (role : string) (input : jsstring)
  : M Advanced.Heap Response :=
  Advanced.target_run (Advanced.Get (Advanced.agents this) (js role)) input.

(** [async executeComplexTask(task)] *)
Definition executeComplexTask (this : Advanced.AgentSystem) (task : jsstring)
  : M Advanced.Heap TaskResult :=
  console_log [nl ++ ToolScript.rocket ++ js " Starting complex task: "
               ++ dq ++ task ++ dq] >>
  (* Step 1: Manager analyzes the task and creates a plan *)
  let* plan :=
    agent_run this "manager"
      (js "Analyze this task and create a step-by-step plan: " ++ dq ++ task ++ dq) in
  console_log [clipboard ++ js " Manager's Plan: " ++ ToString plan] >>
  (* Step 2: Researcher gathers information *)
  let* researchResult :=
    agent_run this "researcher"
      (js "Research information related to: " ++ dq ++ task ++ dq
       ++ js ". Store your findings in shared memory.") in
  console_log [ToolScript.magnifier ++ js " Research Results: " ++ ToString researchResult] >>
  (* Step 3: Analyst processes the information *)
  let* analysisResult :=
    agent_run this "analyst"
      (js "Analyze the research data and provide insights. Check shared memory for research findings.") in
  console_log [ToolScript.chart ++ js " Analysis Results: " ++ ToString analysisResult] >>
  (* Step 4: Writer creates the final report *)
  let* report :=
    agent_run this "writer"
      (js "Create a comprehensive report based on the research and analysis. Check shared memory for all available data.") in
  console_log [memo ++ js " Final Report: " ++ ToString report] >>
  (* Step 5: Manager reviews and synthesizes *)
  let* finalResult :=
    agent_run this "manager"
      (js "Review the final report and provide a summary of the complete task execution.") in
  λ h, ret {| task := task;
              plan := plan;
              researchResult := researchResult;
              analysisResult := analysisResult;
              report := report;
              finalResult := finalResult;
              sharedMemory := Advanced.data (Advanced.sharedMemory h);
              conversationHistory :=
                Advanced.getHistory (Advanced.sharedMemory h) |} h.

(** The [agents] object built by [AgentCommunicationExample]'s constructor. *)
Definition new_AgentCommunicationExample : Advanced.AgentSystem := {|
  Advanced.agents :=
    <[js "researcher" := Advanced.researchAgent]>
    (<[js "analyst" := Advanced.analysisAgent]>
    (<[js "writer" := Advanced.writerAgent]> ∅))
|}.

(** [async demonstrateCommunication()] *)
Definition demonstrateCommunication (this : Advanced.AgentSystem)
  : M Advanced.Heap unit :=
  console_log [nl ++ ToolScript.speech ++ js " Agent Communication Demonstration"] >>
  console_log [repeat_str (js "=") 50] >>
  (* Agent 1 asks Agent 2 for help *)
  let* response1 :=
    agent_run this "researcher"
      (js "I need help analyzing climate change data. Can you help me understand the trends?") in
  console_log [js "Researcher: " ++ ToString response1] >>
  (* Agent 2 responds and asks Agent 3 for additional info *)
  let* response2 :=
    agent_run this "analyst"
      (js "I can help analyze climate data. Let me also ask the writer to help format our findings.") in
  console_log [js "Analyst: " ++ ToString response2] >>
  (* Agent 3 provides formatting help *)
  let* response3 :=
    agent_run this "writer"
      (js "I can help format the climate change analysis into a clear report. What specific data do you have?") in
  console_log [js "Writer: " ++ ToString response3].

End Script.
End AdvancedTask.

(** ** The two sessions side by side *)

Section Sessions.
Context `{rt : Runtime}.

Definition queriesOf (v : Script) : list jsstring :=
  match v with
  | NoToolsScript => NoTools.exampleQueries
  | WithToolsScript => ToolScript.exampleQueries
  end.

Definition sessionLoopOf (v : Script) (queries : list jsstring) : M World unit :=
  match v with
  | NoToolsScript => NoTools.session_loop NoTools.new_MultiAgentSystem queries
  | WithToolsScript => ToolScript.session_loop WithTools.new_MultiAgentSystem queries
  end.

Definition sessionOf (v : Script) : M World unit :=
  match v with
  | NoToolsScript => NoTools.runInteractiveSession NoTools.new_MultiAgentSystem
  | WithToolsScript => ToolScript.runInteractiveSession WithTools.new_MultiAgentSystem
  end.
End Sessions.

Section Following.
Context `{rt : Runtime}.

(** The runs of a computation follow a list of expected runs: they are an
    initial part of it, and all of it when the computation ends normally. *)
Definition follows {A} (expected : list (Agent * Input)) (c : Completion A)
    (tr : list (Event Response)) : Prop :=
  calls tr `prefix_of` expected ∧
  match c with
  | Normal _ => calls tr = expected
  | Throw _ => True
  end.

End Following.

(** The runs a collaborative task calls for, in the order of the source. *)
Definition task_plan (task : jsstring) : list (Agent * Input) :=
  [ (Advanced.managerAgent,
     Text (js "Analyze this task and create a step-by-step plan: " ++ dq ++ task ++ dq));
    (Advanced.researchAgent,
     Text (js "Research information related to: " ++ dq ++ task ++ dq
           ++ js ". Store your findings in shared memory."));
    (Advanced.analysisAgent,
     Text (js "Analyze the research data and provide insights. Check shared memory for research findings."));
    (Advanced.writerAgent,
     Text (js "Create a comprehensive report based on the research and analysis. Check shared memory for all available data."));
    (Advanced.managerAgent,
     Text (js "Review the final report and provide a summary of the complete task execution.")) ].

(** The runs of the communication demonstration, in the order of the
    source. *)
Definition communication_plan : list (Agent * Input) :=
  [ (Advanced.researchAgent,
     Text (js "I need help analyzing climate change data. Can you help me understand the trends?"));
    (Advanced.analysisAgent,
     Text (js "I can help analyze climate data. Let me also ask the writer to help format our findings."));
    (Advanced.writerAgent,
     Text (js "I can help format the climate change analysis into a clear report. What specific data do you have?")) ].

(** The value of a key after a sequence of calls: that of the last [set] on
    the key, or the value before the calls. *)
Fixpoint value_after `{rt : Runtime} (ops : list (Operation * World))
    (key : jsstring) (before : Advanced.Value) : Advanced.Value :=
  match ops with
  | [] => before
  | (OpSet k v, _) :: rest =>
      value_after rest key (if decide (k = key) then v else before)
  | _ :: rest => value_after rest key before
  end.

(** A generator that always yields three quarters. *)
Definition steady_random : nat → QArith_base.Q * nat :=
  λ w, (QArith_base.Qmake 3 4, S w).

(** * Properties *)

Arguments js : simpl never.

(** ** Strings *)

Lemma startsWith_prefix s needle :
  startsWith s needle = true ↔ ∃ post, s = needle ++ post.
Proof.
  revert s. induction needle as [|c needle IH]; intros s; simpl.
  - split; [intros _; by exists s | done].
  - destruct s as [|d s]; simpl.
    + split; [done | intros [post Hpost]; discriminate Hpost].
    + rewrite andb_true_iff, N.eqb_eq, IH. split.
      * intros [-> [post ->]]. by exists post.
      * intros [post Hpost]. injection Hpost as -> ->. eauto.
Qed.

Lemma includes_contains s needle :
  includes s needle = true ↔ contains s needle.
Proof.
  unfold contains. induction s as [|d s IH]; simpl.
  - rewrite orb_false_r, startsWith_prefix. split.
    + intros [post Hpost]. by exists [], post.
    + intros (pre & post & Hs). symmetry in Hs.
      apply app_eq_nil in Hs as [-> Hs]. exists post. by rewrite <- Hs.
  - rewrite orb_true_iff, startsWith_prefix, IH. split.
    + intros [[post Hpost] | (pre & post & ->)].
      * by exists [], post.
      * by exists (d :: pre), post.
    + intros ([|c pre] & post & Hs); simpl in Hs.
      * left. by exists post.
      * injection Hs as -> ->. right. by exists pre, post.
Qed.

Lemma includes_not_contains s needle :
  includes s needle = false ↔ ¬ contains s needle.
Proof. rewrite <- includes_contains. by destruct (includes s needle). Qed.

Lemma isDigit_range c : isDigit c = true ↔ (48 ≤ c ≤ 57)%N.
Proof. unfold isDigit. rewrite andb_true_iff, !N.leb_le. done. Qed.

Lemma regex_digit_test_has_digit s :
  regex_digit_test s = true ↔ has_digit s.
Proof.
  unfold regex_digit_test, has_digit. rewrite existsb_exists.
  split; intros (c & Hc & Hd); exists c.
  - apply list_elem_of_In in Hc. by apply isDigit_range in Hd.
  - apply list_elem_of_In in Hc. by apply isDigit_range in Hd.
Qed.

Lemma historyMatch_contains lowered :
  historyMatch lowered = true ↔
  contains lowered (js "history") ∨ contains lowered (js "historical").
Proof. unfold historyMatch. by rewrite orb_true_iff, !includes_contains. Qed.

Lemma scienceMatch_contains lowered :
  scienceMatch lowered = true ↔
  contains lowered (js "science") ∨ contains lowered (js "scientific").
Proof. unfold scienceMatch. by rewrite orb_true_iff, !includes_contains. Qed.

Lemma mathMatch_contains lowered raw :
  mathMatch lowered raw = true ↔
  contains lowered (js "math") ∨ contains lowered (js "calculate")
  ∨ contains lowered (js "equation") ∨ has_digit raw.
Proof.
  unfold mathMatch.
  rewrite !orb_true_iff, !includes_contains, regex_digit_test_has_digit.
  tauto.
Qed.

(** ** Running the routers symbolically *)

Lemma size_insert_eqb {V} (m : gmap jsstring V) k v :
  Nat.eqb (size (<[k := v]> m)) 0 = false.
Proof.
  apply Nat.eqb_neq. intros H. apply map_size_empty_inv in H.
  by apply insert_non_empty in H.
Qed.

Lemma size_empty_eqb {V} : Nat.eqb (size (∅ : gmap jsstring V)) 0 = true.
Proof. by rewrite map_size_empty. Qed.

(** Unfold the monad in [H] and decide the emptiness test of the router. *)
Ltac exec_in H :=
  cbv beta iota delta [bind ret throw console_log console_error await_run
    NoTools.coordinator NoTools.history NoTools.science NoTools.math
    NoTools.agents NoTools.new_MultiAgentSystem
    WithTools.new_MultiAgentSystem] in H;
  rewrite ?size_insert_eqb, ?size_empty_eqb in H.

(** One step of [H]: the next SDK run settles one way or the other, the next
    routing test goes one way or the other. *)
Ltac run_step H :=
  match type of H with
  | context [run ?a ?i ?w] =>
      let E := fresh "Erun" in
      destruct (run a i w) as [[?r | ?e] ?w] eqn:E; exec_in H
  | context [if ?b then _ else _] =>
      let E := fresh "Etest" in
      destruct b eqn:E; exec_in H
  end.

(** All runs of a router, however they end. *)
Ltac run_all H :=
  unfold processQueryOf, NoTools.processQuery, WithTools.processQuery in H;
  exec_in H;
  repeat run_step H;
  cbn [app] in H.

(** All runs of a router that complete as [H] says. *)
Ltac run_router H :=
  unfold processQueryOf, NoTools.processQuery, WithTools.processQuery in H;
  exec_in H;
  repeat (run_step H; try discriminate H);
  cbn [app] in H.

Section RouterProperties.
Context `{rt : Runtime}.

Lemma invoked_names n (tr : list (Event Response)) :
  invoked n tr ↔ n ∈ (name ∘ fst) <$> calls tr.
Proof.
  unfold invoked. rewrite list_elem_of_fmap. split.
  - intros (a & i & Hin & <-). by exists (a, i).
  - intros ([a i] & -> & Hin). by exists a, i.
Qed.

Lemma invoked_decide n (tr : list (Event Response)) (b : bool) (P : Prop) :
  bool_decide (n ∈ (name ∘ fst) <$> calls tr) = b →
  (b = true ↔ P) →
  invoked n tr ↔ P.
Proof.
  intros <- HP. rewrite invoked_names, <- HP. symmetry. apply bool_decide_eq_true.
Qed.

(** Decide, on a trace that is known event by event, whether an agent of a
    given name was run, against the routing test [Hm] characterises. *)
Local Ltac settle_invoked Hm :=
  eapply invoked_decide; [ vm_compute; reflexivity | ];
  rewrite <- Hm;
  unfold historyMatch, scienceMatch, mathMatch;
  repeat match goal with E : _ = _ :> bool |- _ => rewrite E; clear E end;
  done.

(** C1. On every run of [processQuery] in which no awaited SDK run is
    rejected, [processQuery] returns, and: the History Expert was run
    exactly when the lowercased query contains "history" or "historical",
    the Science Expert exactly when it contains "science" or "scientific";
    the keys [history] and [science] of the returned [agentResponses] hold
    the response of that run (and are absent when there was none), and the
    returned object carries the query. *)
Theorem processQuery_history_science v q w c w' tr :
  processQueryOf v q w = (c, w', tr) →
  rejected tr = false →
  ∃ res,
    c = Normal res ∧
    (invoked (js "History Expert") tr ↔
       contains (toLowerCase q) (js "history")
       ∨ contains (toLowerCase q) (js "historical")) ∧
    (invoked (js "Science Expert") tr ↔
       contains (toLowerCase q) (js "science")
       ∨ contains (toLowerCase q) (js "scientific")) ∧
    agentResponses res !! js "history" = response_from (js "History Expert") tr ∧
    agentResponses res !! js "science" = response_from (js "Science Expert") tr ∧
    query res = q.
Proof.
  intros H Hrej.
  pose proof (historyMatch_contains (toLowerCase q)) as Hh.
  pose proof (scienceMatch_contains (toLowerCase q)) as Hs.
  destruct v; run_all H; injection H as <- <- <-;
    vm_compute in Hrej; try discriminate Hrej; clear Hrej;
    eexists; (split; [ reflexivity | ]);
    (split; [ settle_invoked Hh | split; [ settle_invoked Hs | ] ]);
    repeat split; vm_compute; reflexivity.
Qed.

(** C2. On every run of [processQuery] in which no awaited SDK run is
    rejected, [processQuery] returns, and the Math Expert was run exactly
    when the lowercased query contains "math", "calculate" or "equation",
    or the raw query has a decimal digit among its code units; its response
    is what the key [math] of the returned [agentResponses] holds. *)
Theorem processQuery_math v q w c w' tr :
  processQueryOf v q w = (c, w', tr) →
  rejected tr = false →
  ∃ res,
    c = Normal res ∧
    (invoked (js "Math Expert") tr ↔
       contains (toLowerCase q) (js "math")
       ∨ contains (toLowerCase q) (js "calculate")
       ∨ contains (toLowerCase q) (js "equation")
       ∨ has_digit q) ∧
    agentResponses res !! js "math" = response_from (js "Math Expert") tr.
Proof.
  intros H Hrej.
  pose proof (mathMatch_contains (toLowerCase q) q) as Hm.
  destruct v; run_all H; injection H as <- <- <-;
    vm_compute in Hrej; try discriminate Hrej; clear Hrej;
    eexists; (split; [ reflexivity | ]);
    (split; [ settle_invoked Hm | vm_compute; reflexivity ]).
Qed.

(** Rewrite the routing tests of the goal with what the run found. *)
Local Ltac use_tests :=
  unfold plan, buckets, historyMatch, scienceMatch, mathMatch;
  repeat match goal with E : _ = _ :> bool |- _ => rewrite E; clear E end;
  cbn [app orb negb].

(** The runs of a router are a prefix of the plan of the query, and the whole
    plan when the router returns; no run starts while another is pending. *)
Lemma processQuery_follows_plan v q w c w' tr :
  processQueryOf v q w = (c, w', tr) →
  overlap_free false tr = true ∧
  calls tr `prefix_of` plan v (toLowerCase q) q ∧
  (∀ res, c = Normal res → calls tr = plan v (toLowerCase q) q).
Proof.
  intros H.
  destruct v;
    unfold processQueryOf, NoTools.processQuery, WithTools.processQuery in H;
    exec_in H; repeat run_step H; cbn [app] in H;
    injection H as <- <- <-;
    (split; [ reflexivity | ]);
    use_tests; cbn [calls specialistInput systemOf];
    (split; [ eexists; reflexivity | intros res' Hres; try discriminate Hres; reflexivity ]).
Qed.

(** The keys of the returned [agentResponses] are the buckets of the query. *)
Lemma processQuery_buckets v q w res w' tr :
  processQueryOf v q w = (Normal res, w', tr) →
  dom (agentResponses res) = buckets (toLowerCase q) q.
Proof.
  intros H.
  destruct v; run_router H; injection H as <- <- <-;
    use_tests; cbn [agentResponses];
    rewrite ?dom_insert_L, ?dom_empty_L; set_solver.
Qed.

Lemma invoked_refute n (tr : list (Event Response)) :
  bool_decide (n ∈ (name ∘ fst) <$> calls tr) = false → ¬ invoked n tr.
Proof. rewrite invoked_names. apply bool_decide_eq_false. Qed.

(** Whatever way a run of a router ends, a specialist is only ever run on a
    query that passes its test. *)
Lemma processQuery_never_misroutes v q w c w' tr :
  processQueryOf v q w = (c, w', tr) →
  (invoked (js "History Expert") tr →
     contains (toLowerCase q) (js "history")
     ∨ contains (toLowerCase q) (js "historical")) ∧
  (invoked (js "Science Expert") tr →
     contains (toLowerCase q) (js "science")
     ∨ contains (toLowerCase q) (js "scientific")) ∧
  (invoked (js "Math Expert") tr →
     contains (toLowerCase q) (js "math")
     ∨ contains (toLowerCase q) (js "calculate")
     ∨ contains (toLowerCase q) (js "equation")
     ∨ has_digit q).
Proof.
  intros H.
  rewrite <- historyMatch_contains, <- scienceMatch_contains, <- mathMatch_contains.
  destruct v;
    unfold processQueryOf, NoTools.processQuery, WithTools.processQuery in H;
    exec_in H; repeat run_step H; cbn [app] in H;
    injection H as <- <- <-;
    unfold historyMatch, scienceMatch, mathMatch;
    repeat match goal with E : _ = _ :> bool |- _ => rewrite E; clear E end;
    repeat split;
    first [ done
          | intros Hin; exfalso; revert Hin; apply invoked_refute;
            vm_compute; reflexivity ].
Qed.

(** A router returns when every run it starts is fulfilled. *)
Lemma processQuery_returns v q w :
  (∀ a i w0, ∃ r w1, run a i w0 = (Fulfilled r, w1)) →
  ∃ res w' tr, processQueryOf v q w = (Normal res, w', tr).
Proof.
  intros Hall.
  destruct (processQueryOf v q w) as [[[res | e] w'] tr] eqn:H; [ by eauto | ].
  exfalso.
  destruct v;
    unfold processQueryOf, NoTools.processQuery, WithTools.processQuery in H;
    exec_in H;
    repeat match type of H with
      | context [run ?a ?i ?w0] =>
          let Hr := fresh "Hr" in
          destruct (Hall a i w0) as (? & ? & Hr); rewrite Hr in H; clear Hr;
          exec_in H
      | context [if ?b then _ else _] => destruct b; exec_in H
      end;
    discriminate H.
Qed.

(** C3. Whatever way a run of [processQuery] ends, its SDK runs are strictly
    sequential and in the fixed order of the source: no run starts while
    another is pending, every run started is awaited until it settles, the
    coordinator's analysis is the first run and settles before anything
    else is started, and the runs are an initial part of the plan
    "analysis, then history, science, math for the tests that match, then
    the coordinator if none did" - the whole plan when [processQuery]
    returns. *)
Theorem processQuery_sequential v q w c w' tr :
  processQueryOf v q w = (c, w', tr) →
  overlap_free false tr = true ∧
  fst <$> exchanges tr = calls tr ∧
  (∃ o rest,
     exchanges tr = (NoTools.coordinator (NoTools.agents (systemOf v)),
                     analysisInput q, o) :: rest) ∧
  calls tr `prefix_of` plan v (toLowerCase q) q ∧
  (∀ res, c = Normal res → calls tr = plan v (toLowerCase q) q).
Proof.
  intros H.
  destruct v;
    unfold processQueryOf, NoTools.processQuery, WithTools.processQuery in H;
    exec_in H; repeat run_step H; cbn [app] in H;
    injection H as <- <- <-;
    (split; [ reflexivity | ]);
    (split; [ reflexivity | ]);
    (split; [ eexists _, _; reflexivity | ]);
    use_tests; cbn [calls specialistInput systemOf];
    (split; [ eexists; reflexivity | intros res' Hres; try discriminate Hres; reflexivity ]).
Qed.

(** C8. On every run of [processQuery] in which no awaited SDK run is
    rejected, [processQuery] returns and the returned [agentResponses] is
    not empty; when none of the three tests matched, the coordinator was
    run on the raw query, as the last run, and its response is the one
    entry of [agentResponses], under the key [coordinator]. *)
Theorem processQuery_answers v q w c w' tr :
  processQueryOf v q w = (c, w', tr) →
  rejected tr = false →
  ∃ res,
    c = Normal res ∧
    agentResponses res ≠ ∅ ∧
    (¬ (contains (toLowerCase q) (js "history")
        ∨ contains (toLowerCase q) (js "historical")) →
     ¬ (contains (toLowerCase q) (js "science")
        ∨ contains (toLowerCase q) (js "scientific")) →
     ¬ (contains (toLowerCase q) (js "math")
        ∨ contains (toLowerCase q) (js "calculate")
        ∨ contains (toLowerCase q) (js "equation")
        ∨ has_digit q) →
     ∃ r, last (exchanges tr)
            = Some (NoTools.coordinator (NoTools.agents (systemOf v)), Text q,
                    Fulfilled r)
          ∧ agentResponses res = {[ js "coordinator" := r ]}).
Proof.
  intros H Hrej.
  destruct v; run_all H; injection H as <- <- <-;
    vm_compute in Hrej; try discriminate Hrej; clear Hrej;
    eexists; (split; [ reflexivity | ]);
    (split; [ apply insert_non_empty | ]);
    rewrite <- historyMatch_contains, <- scienceMatch_contains, <- mathMatch_contains;
    use_tests; intros Hh Hs Hm; try done;
    eexists; split; reflexivity.
Qed.

End RouterProperties.

(** C7. The buckets of a query are a function of the query alone: two runs
    of [processQuery] on the same query, in any two worlds and over any two
    SDK and LLM behaviours (the language's lowercasing being the same),
    return objects with the same keys - the buckets of the query - and start
    the same runs in the same order. *)
Theorem routing_deterministic (rt1 rt2 : Runtime) v q
    (w1 : @World rt1) (w2 : @World rt2) res1 res2 w1' w2' tr1 tr2 :
  @toLowerCase rt1 q = @toLowerCase rt2 q →
  @processQueryOf rt1 v q w1 = (Normal res1, w1', tr1) →
  @processQueryOf rt2 v q w2 = (Normal res2, w2', tr2) →
  dom (agentResponses res1) = buckets (@toLowerCase rt1 q) q ∧
  dom (agentResponses res1) = dom (agentResponses res2) ∧
  calls tr1 = calls tr2.
Proof.
  intros Hlower H1 H2.
  pose proof (processQuery_buckets _ _ _ _ _ _ H1) as B1.
  pose proof (processQuery_buckets _ _ _ _ _ _ H2) as B2.
  pose proof (processQuery_follows_plan _ _ _ _ _ _ H1) as (_ & _ & P1).
  pose proof (processQuery_follows_plan _ _ _ _ _ _ H2) as (_ & _ & P2).
  rewrite B1, B2, (P1 _ eq_refl), (P2 _ eq_refl), Hlower. done.
Qed.

(** ** The driver *)

Section DriverProperties.
Context `{rt : Runtime}.

Lemma bind_inv {S A B} (m : M S A) (k : A → M S B) s c s' tr :
  bind m k s = (c, s', tr) →
  (∃ a s1 t1 t2, m s = (Normal a, s1, t1) ∧ k a s1 = (c, s', t2) ∧ tr = t1 ++ t2)
  ∨ (∃ e, m s = (Throw e, s', tr) ∧ c = Throw e).
Proof.
  unfold bind. destruct (m s) as [[[a | e] s1] t1].
  - destruct (k a s1) as [[c2 s2] t2] eqn:Hk. intros [= <- <- <-].
    left. by exists a, s1, t1, t2.
  - intros [= <- <- <-]. right. by exists e.
Qed.

Lemma after_rejection_app (t1 t2 : list (Event Response)) :
  after_rejection (t1 ++ t2)
  = if rejected t1 then after_rejection t1 ++ t2 else after_rejection t2.
Proof.
  induction t1 as [|[a i | [r | e] | args | args] t1 IH]; simpl; done.
Qed.

Lemma rejected_app (t1 t2 : list (Event Response)) :
  rejected (t1 ++ t2) = rejected t1 || rejected t2.
Proof.
  induction t1 as [|[a i | [r | e] | args | args] t1 IH]; simpl; done.
Qed.

Lemma calls_app (t1 t2 : list (Event Response)) :
  calls (t1 ++ t2) = calls t1 ++ calls t2.
Proof.
  induction t1 as [|[a i | o | args | args] t1 IH]; simpl; by rewrite ?IH.
Qed.

(** A run of a computation is quiet when nothing is started after a rejected
    run, and no run was rejected if the computation finished normally. *)
Definition quiet {A} (c : Completion A) (tr : list (Event Response)) : Prop :=
  calls (after_rejection tr) = [] ∧
  match c with
  | Normal _ => rejected tr = false
  | Throw _ => True
  end.

Lemma quiet_bind {S A B} (m : M S A) (k : A → M S B) s c s' tr :
  (∀ c1 s1 t1, m s = (c1, s1, t1) → quiet c1 t1) →
  (∀ a s1 c2 s2 t2, k a s1 = (c2, s2, t2) → quiet c2 t2) →
  bind m k s = (c, s', tr) → quiet c tr.
Proof.
  intros Hm Hk [(a & s1 & t1 & t2 & Em & Ek & ->) | (e & Em & ->)]%bind_inv.
  - destruct (Hm _ _ _ Em) as [_ Hclean]. destruct (Hk _ _ _ _ _ Ek) as [Hq Hc].
    split.
    + by rewrite after_rejection_app, Hclean.
    + destruct c; [ | done ]. by rewrite rejected_app, Hclean, Hc.
  - destruct (Hm _ _ _ Em) as [Hq _]. by split.
Qed.

(** Peel the first action off a sequence, given that it is quiet. *)
Local Ltac quiet_step lem :=
  let H := fresh in
  intros H; refine (quiet_bind _ _ _ _ _ _ _ _ H); clear H;
  [ intros ???; apply lem | intros ????? ].

Lemma quiet_console_log {S} args (s : S) c s' tr :
  console_log args s = (c, s', tr) → quiet c tr.
Proof. intros [= <- <- <-]. by split. Qed.

Lemma quiet_ret {S A} (a : A) (s : S) c s' tr :
  ret a s = (c, s', tr) → quiet c tr.
Proof. intros [= <- <- <-]. by split. Qed.

Lemma quiet_stringify result w c w' tr :
  NoTools.stringify result w = (c, w', tr) → quiet c tr.
Proof.
  unfold NoTools.stringify.
  destruct (JSON_stringify result); intros [= <- <- <-]; by split.
Qed.

Lemma quiet_processQuery q w c w' tr :
  NoTools.processQuery NoTools.new_MultiAgentSystem q w = (c, w', tr) → quiet c tr.
Proof.
  intros H. unfold NoTools.processQuery in H.
  exec_in H; repeat run_step H; cbn [app] in H;
    injection H as <- <- <-; by split.
Qed.

Lemma quiet_session_loop queries w c w' tr :
  NoTools.session_loop NoTools.new_MultiAgentSystem queries w = (c, w', tr) →
  quiet c tr.
Proof.
  revert w c w' tr. induction queries as [|q queries IH]; intros w c w' tr.
  - apply quiet_ret.
  - cbn [NoTools.session_loop].
    quiet_step quiet_processQuery.
    quiet_step (@quiet_console_log World).
    quiet_step quiet_stringify.
    do 2 (quiet_step (@quiet_console_log World)).
    apply IH.
Qed.

Lemma quiet_runInteractiveSession w c w' tr :
  NoTools.runInteractiveSession NoTools.new_MultiAgentSystem w = (c, w', tr) →
  quiet c tr.
Proof.
  unfold NoTools.runInteractiveSession.
  do 4 (quiet_step (@quiet_console_log World)).
  apply quiet_session_loop.
Qed.

Lemma quiet_tail (ts extra : list (Event Response)) :
  calls (after_rejection ts) = [] →
  calls extra = [] → rejected extra = false →
  calls (after_rejection (ts ++ extra)) = [].
Proof.
  intros Hq Hx Hr. rewrite after_rejection_app.
  destruct (rejected ts); [ by rewrite calls_app, Hq, Hx | ].
  clear -Hx Hr. induction extra as [|[a i | [r | e] | args | args] extra IH];
    simpl in *; try done; by apply IH.
Qed.

(** What [main] does with each outcome of the session. *)
Lemma main_cases w :
  match NoTools.runInteractiveSession NoTools.new_MultiAgentSystem w with
  | (Normal _, ws, ts) => NoTools.main w = (Normal tt, ws, ts)
  | (Throw (mkError message), ws, ts) =>
      NoTools.main w
      = (Normal tt, ws,
         ts ++ error_line message ::
           (if includes message (js "OPENAI_API_KEY") then setup_instructions else []))
  | (Throw Messageless, ws, ts) =>
      NoTools.main w
      = (Throw (mkError (js "Cannot read properties of undefined (reading 'includes')")),
         ws, ts ++ [error_line (js "undefined")])
  | (Throw (Nullish null), ws, ts) =>
      NoTools.main w
      = (Throw (mkError (js "Cannot read properties of "
                         ++ (if null then js "null" else js "undefined")
                         ++ js " (reading 'message')")),
         ws, ts)
  end.
Proof.
  unfold NoTools.main, try_catch.
  destruct (NoTools.runInteractiveSession NoTools.new_MultiAgentSystem w)
    as [[[[] | [message | | null]] ws] ts]; [ done | | | ].
  - cbv beta iota delta [bind ret throw console_log console_error
      read_message message_includes shown].
    destruct (includes message (js "OPENAI_API_KEY")); reflexivity.
  - cbv beta iota delta [bind ret throw console_log console_error
      read_message message_includes shown]. reflexivity.
  - cbv beta iota delta [bind ret throw console_log console_error
      read_message message_includes shown]. by rewrite app_nil_r.
Qed.

(** Errors with a message. If the session returns, [main] does what the
    session did. If the session throws an error whose [message] is a
    string, [main] catches it and returns: it does what the session did up
    to the throw, then prints the error line with the message, followed by
    the three lines of setup instructions if the message contains
    "OPENAI_API_KEY" and by nothing otherwise. Whatever is thrown, nothing
    is run after a rejected run: the failed operation is not attempted
    again. *)
Theorem main_catches_and_reports w :
  (∀ ws ts,
     NoTools.runInteractiveSession NoTools.new_MultiAgentSystem w = (Normal tt, ws, ts) →
     NoTools.main w = (Normal tt, ws, ts)) ∧
  (∀ message ws ts,
     NoTools.runInteractiveSession NoTools.new_MultiAgentSystem w
     = (Throw (mkError message), ws, ts) →
     ∃ tr,
       NoTools.main w = (Normal tt, ws, tr) ∧
       (contains message (js "OPENAI_API_KEY") →
          tr = ts ++ error_line message :: setup_instructions) ∧
       (¬ contains message (js "OPENAI_API_KEY") →
          tr = ts ++ [error_line message])) ∧
  calls (after_rejection (NoTools.main w).2) = [].
Proof.
  pose proof (main_cases w) as Hmain.
  destruct (NoTools.runInteractiveSession NoTools.new_MultiAgentSystem w)
    as [[c ws] ts] eqn:Hs.
  pose proof (quiet_runInteractiveSession _ _ _ _ Hs) as [Hq _].
  split; [ | split ].
  - intros ws' ts' [= -> <- <-]. exact Hmain.
  - intros message ws' ts' [= -> <- <-]. rewrite Hmain. eexists.
    split; [ reflexivity | ].
    destruct (includes message (js "OPENAI_API_KEY")) eqn:Hkey; split; intros Hc;
      first [ reflexivity
            | by apply includes_contains in Hkey
            | by apply includes_not_contains in Hkey ].
  - destruct c as [[] | [message | | null]]; rewrite Hmain; cbn [snd];
      [ done | | | done ].
    + apply quiet_tail; [ done | | ];
        by destruct (includes message (js "OPENAI_API_KEY")).
    + by apply quiet_tail.
Qed.

(** C6, on the thrown values on which the code departs from it. A [catch]
    receives any value. When the session throws [undefined] or [null], the
    handler's own [error.message] throws before anything is printed; when it
    throws a value without a [message] (a string, say), the handler prints
    the error line with "undefined" and its [error.message.includes] throws.
    In both cases [main] ends by a [TypeError] instead of catching. *)
Theorem main_throws_on_messageless w ws ts :
  (∀ null,
     NoTools.runInteractiveSession NoTools.new_MultiAgentSystem w
     = (Throw (Nullish null), ws, ts) →
     NoTools.main w
     = (Throw (mkError (js "Cannot read properties of "
                        ++ (if null then js "null" else js "undefined")
                        ++ js " (reading 'message')")),
        ws, ts)) ∧
  (NoTools.runInteractiveSession NoTools.new_MultiAgentSystem w
   = (Throw Messageless, ws, ts) →
   NoTools.main w
   = (Throw (mkError (js "Cannot read properties of undefined (reading 'includes')")),
      ws, ts ++ [error_line (js "undefined")])).
Proof.
  pose proof (main_cases w) as Hmain.
  split; [ intros null Hs | intros Hs ]; by rewrite Hs in Hmain.
Qed.

End DriverProperties.

(** ** Shared memory *)

Section MemoryProperties.
Context `{rt : Runtime}.
Import Advanced.

Lemma perform_history op w this :
  conversationHistory (perform op w this).2
  = conversationHistory this ++ appended op w.
Proof. destruct op; simpl; by rewrite ?app_nil_r. Qed.

Lemma perform_all_history ops this :
  getHistory (perform_all ops this)
  = getHistory this ++ flat_map (λ x, appended x.1 x.2) ops.
Proof.
  unfold getHistory. revert this.
  induction ops as [|[op w] ops IH]; intros this; simpl.
  - by rewrite app_nil_r.
  - by rewrite IH, perform_history, <- app_assoc.
Qed.

(** C4. The conversation history is an append-only log. A call of any of
    the four methods leaves the log as it was, followed by what the call
    appends: one entry (agent, message, timestamp) for [addToHistory],
    nothing for [set], [get] and [getHistory]. So every entry stays at its
    index, unchanged; [getHistory] returns the whole log; and after any
    sequence of calls on a fresh [SharedMemory] the log is the entries of
    its [addToHistory] calls, in the order of the calls. *)
Theorem history_append_only :
  (∀ op w this,
     conversationHistory (perform op w this).2
     = conversationHistory this ++ appended op w
     ∧ (appended op w = [] ∨ ∃ agent message,
          op = OpAddToHistory agent message ∧
          appended op w = [ {| agent := agent; message := message;
                               timestamp := Date_toISOString w |} ])
     ∧ (∀ i entry, conversationHistory this !! i = Some entry →
          conversationHistory (perform op w this).2 !! i = Some entry)) ∧
  (∀ w this, (perform OpGetHistory w this).1 = RetHistory (conversationHistory this)) ∧
  (∀ ops, getHistory (perform_all ops new_SharedMemory)
          = flat_map (λ x, appended x.1 x.2) ops).
Proof.
  split; [ | split ].
  - intros op w this. rewrite perform_history. split; [ done | split ].
    + destruct op; simpl; eauto.
    + intros i entry Hi. by apply lookup_app_l_Some.
  - done.
  - intros ops. by rewrite perform_all_history.
Qed.

Lemma Map_get_set m key value : Map_get (Map_set m key value) key = value.
Proof.
  induction m as [|[k v] m IH]; simpl.
  - by rewrite decide_True.
  - destruct (decide (k = key)) as [-> | Hne]; simpl.
    + by rewrite decide_True.
    + by rewrite decide_False.
Qed.

Lemma Map_get_set_ne m key key' value :
  key ≠ key' → Map_get (Map_set m key value) key' = Map_get m key'.
Proof.
  intros Hne. induction m as [|[k v] m IH]; simpl.
  - by rewrite decide_False.
  - destruct (decide (k = key)) as [-> | Hk]; simpl.
    + by rewrite !decide_False by done.
    + by rewrite IH.
Qed.

Lemma Map_keys_set_present m key value :
  key ∈ Map_keys m → Map_keys (Map_set m key value) = Map_keys m.
Proof.
  unfold Map_keys. induction m as [|[k v] m IH]; intros Hin.
  - by apply elem_of_nil in Hin.
  - cbn [Map_set]. destruct (decide (k = key)) as [-> | Hk]; [ done | ].
    apply elem_of_cons in Hin as [Heq | Hin]; [ by symmetry in Heq | ].
    cbn [fmap list_fmap]. by rewrite IH.
Qed.

Lemma Map_keys_set_absent m key value :
  key ∉ Map_keys m → Map_keys (Map_set m key value) = Map_keys m ++ [key].
Proof.
  unfold Map_keys. induction m as [|[k v] m IH]; intros Hout.
  - done.
  - cbn [Map_set]. apply not_elem_of_cons in Hout as [Hne Hout].
    rewrite decide_False by (intros Heq; by symmetry in Heq).
    cbn [fmap list_fmap app]. by rewrite IH.
Qed.

Lemma Map_set_NoDup m key value :
  NoDup (Map_keys m) → NoDup (Map_keys (Map_set m key value)).
Proof.
  intros Hm. destruct (decide (key ∈ Map_keys m)) as [Hin | Hout].
  - by rewrite Map_keys_set_present.
  - rewrite Map_keys_set_absent by done.
    apply NoDup_app. split; [ done | split ].
    + intros k Hk ->%list_elem_of_singleton. done.
    + apply NoDup_singleton.
Qed.

Lemma perform_NoDup op w this :
  NoDup (Map_keys (data this)) → NoDup (Map_keys (data (perform op w this).2)).
Proof. destruct op; simpl; [ apply Map_set_NoDup | done .. ]. Qed.

Lemma perform_all_NoDup ops this :
  NoDup (Map_keys (data this)) → NoDup (Map_keys (data (perform_all ops this))).
Proof.
  revert this. induction ops as [|[op w] ops IH]; intros this Hthis; simpl.
  - done.
  - by apply IH, perform_NoDup.
Qed.

(** C5. [get(k)] right after [set(k, v)] returns [v]. [set] on a key that is
    present keeps the keys as they are (the value is overwritten, no entry
    is added), on an absent key it adds the key once, and other keys keep
    their values. Hence keys stay unique: in every state reached from a
    fresh [SharedMemory] no key occurs twice. *)
Theorem set_get_unique_keys :
  (∀ this k v, get (set this k v) k = v) ∧
  (∀ this k v, k ∈ Map_keys (data this) →
     Map_keys (data (set this k v)) = Map_keys (data this)) ∧
  (∀ this k v, k ∉ Map_keys (data this) →
     Map_keys (data (set this k v)) = Map_keys (data this) ++ [k]) ∧
  (∀ this k v k', k ≠ k' → get (set this k v) k' = get this k') ∧
  (∀ ops, NoDup (Map_keys (data (perform_all ops new_SharedMemory)))).
Proof.
  repeat split.
  - intros this k v. apply Map_get_set.
  - intros this k v Hin. by apply Map_keys_set_present.
  - intros this k v Hout. by apply Map_keys_set_absent.
  - intros this k v k' Hne. by apply Map_get_set_ne.
  - intros ops. apply perform_all_NoDup. simpl. apply NoDup_nil_2.
Qed.

End MemoryProperties.

(** ** The tools *)

Section ToolProperties.
Context `{rt : Runtime}.
Import Advanced.

Lemma read_is_read : decide (js "read" = js "read") = left eq_refl.
Proof. by vm_compute. Qed.

Lemma memoryTool_read key value h :
  memoryTool_execute (js "read") key value h
  = (Normal (Str (js "Memory value for " ++ dq ++ key ++ dq ++ js ": "
                  ++ Value_ToString (or_else (get (sharedMemory h) key)
                                       (Str (js "not found"))))),
     h, []).
Proof. unfold memoryTool_execute. by rewrite read_is_read. Qed.

Lemma memoryTool_write key value h :
  memoryTool_execute (js "write") key value h
  = (Normal (Str (js "Stored " ++ dq ++ Value_ToString value ++ dq
                  ++ js " with key " ++ dq ++ key ++ dq)),
     {| world := world h; sharedMemory := set (sharedMemory h) key value |},
     []).
Proof.
  unfold memoryTool_execute.
  rewrite decide_False by (intros H; vm_compute in H; discriminate H).
  rewrite decide_True by done. reflexivity.
Qed.

Lemma Map_get_absent m key : key ∉ Map_keys m → Map_get m key = Undefined.
Proof.
  unfold Map_keys. induction m as [|[k v] m IH]; intros Hout; [ done | ].
  apply not_elem_of_cons in Hout as [Hne Hout]. cbn [Map_get].
  rewrite decide_False by (intros Heq; by symmetry in Heq). by apply IH.
Qed.

(** C9. A [read] through [access_memory] answers "not found" whenever the
    value [get] returns is falsy: when the key is absent, and equally when
    a falsy value is stored under it. In particular, after a [write] of the
    empty string under a key, the key is present and a [read] of it still
    answers "not found". *)
Theorem read_reports_falsy_as_not_found :
  (∀ h key value,
     ToBoolean (get (sharedMemory h) key) = false →
     memoryTool_execute (js "read") key value h
     = (Normal (not_found_message key), h, [])) ∧
  (∀ this key,
     key ∉ Map_keys (data this) → ToBoolean (get this key) = false) ∧
  (∀ h key value,
     ∃ h', (memoryTool_execute (js "write") key (Str []) h).1.2 = h' ∧
           key ∈ Map_keys (data (sharedMemory h')) ∧
           get (sharedMemory h') key = Str [] ∧
           memoryTool_execute (js "read") key value h'
           = (Normal (not_found_message key), h', [])).
Proof.
  split; [ | split ].
  - intros h key value Hfalsy. rewrite memoryTool_read.
    unfold or_else. by rewrite Hfalsy.
  - intros this key Hout. unfold get. by rewrite Map_get_absent.
  - intros h key value. eexists. split; [ reflexivity | ].
    rewrite memoryTool_write. cbn [fst snd sharedMemory].
    assert (Hget : get (set (sharedMemory h) key (Str [])) key = Str [])
      by apply Map_get_set.
    split; [ | split; [ done | ] ].
    + cbn [set data].
      destruct (decide (key ∈ Map_keys (data (sharedMemory h)))) as [Hin | Hout].
      * by rewrite Map_keys_set_present.
      * rewrite Map_keys_set_absent by done. apply elem_of_app. right.
        apply list_elem_of_here.
    + rewrite memoryTool_read. cbn [sharedMemory]. by rewrite Hget.
Qed.

(** A target that is not an own property of the agents object and not a
    name inherited from [Object.prototype] is reported as missing; nothing
    else happens. *)
Lemma communicate_unknown_agent targetAgent message agentSystem h :
  agents agentSystem !! toLowerCase targetAgent = None →
  toLowerCase targetAgent ∉ Object_prototype_names →
  communicateTool_execute targetAgent message agentSystem h
  = (Normal (js "Error: Agent " ++ dq ++ targetAgent ++ dq ++ js " not found"),
     h, []).
Proof.
  intros Hown Hproto. unfold communicateTool_execute, Get.
  by rewrite Hown, bool_decide_eq_false_2.
Qed.

(** A target that is not an own property but is a name inherited from
    [Object.prototype] passes the test [!target]; the call of its missing
    [run] throws, and nothing else happens. *)
Lemma communicate_inherited_name targetAgent message agentSystem h :
  agents agentSystem !! toLowerCase targetAgent = None →
  toLowerCase targetAgent ∈ Object_prototype_names →
  communicateTool_execute targetAgent message agentSystem h
  = (Throw (mkError (js "target.run is not a function")), h, []).
Proof.
  intros Hown Hproto. unfold communicateTool_execute, Get.
  by rewrite Hown, bool_decide_eq_true_2.
Qed.

(** Whenever the target is not an own property of the agents object, the
    tool runs no agent and leaves the shared memory, its history included,
    as it was; it returns the error string for the target unless the
    lowercased name is one that objects inherit, and throws for those. *)
Lemma communicate_unknown_target targetAgent message agentSystem h :
  agents agentSystem !! toLowerCase targetAgent = None →
  ∃ c, communicateTool_execute targetAgent message agentSystem h = (c, h, []) ∧
       (toLowerCase targetAgent ∉ Object_prototype_names →
          c = Normal (js "Error: Agent " ++ dq ++ targetAgent ++ dq
                      ++ js " not found")) ∧
       (toLowerCase targetAgent ∈ Object_prototype_names →
          c = Throw (mkError (js "target.run is not a function"))).
Proof.
  intros Hown.
  destruct (decide (toLowerCase targetAgent ∈ Object_prototype_names)).
  - rewrite communicate_inherited_name by done. eexists. by repeat split.
  - rewrite communicate_unknown_agent by done. eexists. by repeat split.
Qed.

(** The tool changes the history exactly when the target's run is
    fulfilled. The history after the call differs from the history before
    it if and only if the trace holds a fulfilled run; a fulfilled run in
    the trace is the run of the agent stored under the lowercased name, on
    the message, fulfilled by the SDK in the world of the call; and
    whenever that agent exists and the SDK fulfils its run, the tool does
    run it, appends exactly one entry (name as given, [{ message,
    response }], time after the run) and returns "Response from <name>:
    <response>". *)
Lemma communicate_appends_on_success targetAgent message agentSystem h c h' tr :
  communicateTool_execute targetAgent message agentSystem h = (c, h', tr) →
  (conversationHistory (sharedMemory h') ≠ conversationHistory (sharedMemory h)
   ↔ ∃ a i response, (a, i, Fulfilled response) ∈ exchanges tr) ∧
  (∀ a i response,
     (a, i, Fulfilled response) ∈ exchanges tr →
     agents agentSystem !! toLowerCase targetAgent = Some a ∧
     i = Text message ∧
     run a (Text message) (world h) = (Fulfilled response, world h')) ∧
  (∀ a response w1,
     agents agentSystem !! toLowerCase targetAgent = Some a →
     run a (Text message) (world h) = (Fulfilled response, w1) →
     c = Normal (js "Response from " ++ targetAgent ++ js ": " ++ ToString response) ∧
     tr = [EvCall a (Text message); EvSettle (Fulfilled response)] ∧
     world h' = w1 ∧
     data (sharedMemory h') = data (sharedMemory h) ∧
     conversationHistory (sharedMemory h')
     = conversationHistory (sharedMemory h)
       ++ [ {| agent := targetAgent; message := Exchange message response;
               timestamp := Date_toISOString w1 |} ]).
Proof.
  unfold communicateTool_execute, Get.
  destruct (agents agentSystem !! toLowerCase targetAgent) as [a|] eqn:Hown.
  - cbv beta iota delta [bind ret target_run await_run sharedMemory_addToHistory].
    destruct (run a (Text message) (world h)) as [[response | e] w1] eqn:Hrun;
      cbn [world sharedMemory]; intros [= <- <- <-];
      cbn [world sharedMemory conversationHistory data addToHistory exchanges].
    + split; [ | split ].
      * split.
        -- intros _. exists a, (Text message), response. apply list_elem_of_here.
        -- intros _ Heq. apply (f_equal List.length) in Heq.
           rewrite length_app in Heq. cbn in Heq. lia.
      * intros a' i' r' Hin. apply list_elem_of_singleton in Hin.
        injection Hin as -> -> ->. done.
      * intros a' r' w1' Hfound Hr. injection Hfound as <-.
        rewrite Hrun in Hr. injection Hr as <- <-. done.
    + split; [ | split ].
      * split; [ done | ].
        intros (a' & i' & r' & Hin). apply list_elem_of_singleton in Hin.
        discriminate Hin.
      * intros a' i' r' Hin. apply list_elem_of_singleton in Hin.
        discriminate Hin.
      * intros a' r' w1' Hfound Hr. injection Hfound as <-.
        rewrite Hrun in Hr. discriminate Hr.
  - case_bool_decide; cbv beta iota delta [bind ret throw target_run];
      intros [= <- <- <-]; cbn [exchanges];
      (split; [ | split ]);
      [ split; [ done | intros (a' & i' & r' & Hin); by apply elem_of_nil in Hin ]
      | intros a' i' r' Hin; by apply elem_of_nil in Hin
      | intros a' r' w1' Hfound; discriminate Hfound
      | split; [ done | intros (a' & i' & r' & Hin); by apply elem_of_nil in Hin ]
      | intros a' i' r' Hin; by apply elem_of_nil in Hin
      | intros a' r' w1' Hfound; discriminate Hfound ].
Qed.

(** C10, at the target name on which the code departs from it. The name
    "constructor" is not a key of the agent map of
    [AdvancedMultiAgentSystem], yet the tool does not return the error
    string for it: the lookup finds [Object.prototype.constructor], the
    test [!target] lets it through, and the call of its missing [run]
    throws a [TypeError]. The history is left unchanged. *)
Theorem communicate_constructor_throws message h :
  toLowerCase (js "constructor") = js "constructor" →
  agents new_AdvancedMultiAgentSystem !! js "constructor" = None ∧
  communicateTool_execute (js "constructor") message new_AdvancedMultiAgentSystem h
  = (Throw (mkError (js "target.run is not a function")), h, []).
Proof.
  intros Hlower.
  assert (Hown : agents new_AdvancedMultiAgentSystem !! js "constructor" = None)
    by (vm_compute; reflexivity).
  split; [ done | ].
  apply communicate_inherited_name; rewrite Hlower; [ done | ].
  unfold Object_prototype_names. apply list_elem_of_here.
Qed.

End ToolProperties.

(** ** More on the routers and the sessions *)

Section SessionProperties.
Context `{rt : Runtime}.

(** If [processQuery] throws, what it throws is the reason of a rejected
    run; that run is the last thing [processQuery] did, and it is the only
    rejected one (the first rejection of the trace has nothing after it). *)
Theorem processQuery_error_propagates v q w e w' tr :
  processQueryOf v q w = (Throw e, w', tr) →
  last tr = Some (EvSettle (Rejected e)) ∧
  after_rejection tr = [] ∧
  ∃ a i, last (exchanges tr) = Some (a, i, Rejected e).
Proof.
  intros H.
  destruct v;
    unfold processQueryOf, NoTools.processQuery, WithTools.processQuery in H;
    exec_in H; repeat run_step H; cbn [app] in H;
    try discriminate H; injection H as <- <- <-;
    (split; [ reflexivity | split; [ reflexivity | ] ]);
    eexists _, _; reflexivity.
Qed.

(** What [processQuery] returns and what it costs: [coordinatorAnalysis] is
    the response of the analysis; every run was fulfilled; there is one run
    for the analysis and one for each key of [agentResponses], so between
    two and four in all; and the coordinator answers only when it is the
    only one to answer. *)
Theorem processQuery_result_shape v q w res w' tr :
  processQueryOf v q w = (Normal res, w', tr) →
  head (exchanges tr)
  = Some (NoTools.coordinator (NoTools.agents (systemOf v)), analysisInput q,
          Fulfilled (coordinatorAnalysis res)) ∧
  rejected tr = false ∧
  List.length (calls tr) = S (size (agentResponses res)) ∧
  2 ≤ List.length (calls tr) ≤ 4 ∧
  (∀ r, agentResponses res !! js "coordinator" = Some r →
        agentResponses res = {[ js "coordinator" := r ]}).
Proof.
  intros H.
  destruct v; run_router H; injection H as <- <- <-;
    (split; [ reflexivity | split; [ reflexivity | ] ]);
    (split; [ vm_compute; reflexivity | ]);
    (split; [ cbn [calls List.length]; lia | ]);
    intros resp Hr; vm_compute in Hr; try discriminate Hr;
    injection Hr as <-; reflexivity.
Qed.

Lemma follows_bind {S A B} (m : M S A) (k : A → M S B) s c s' tr e1 e2 :
  (∀ c1 s1 t1, m s = (c1, s1, t1) → follows e1 c1 t1) →
  (∀ a s1 c2 s2 t2, k a s1 = (c2, s2, t2) → follows e2 c2 t2) →
  bind m k s = (c, s', tr) → follows (e1 ++ e2) c tr.
Proof.
  intros Hm Hk [(a & s1 & t1 & t2 & Em & Ek & ->) | (e & Em & ->)]%bind_inv.
  - destruct (Hm _ _ _ Em) as [_ Hall]. destruct (Hk _ _ _ _ _ Ek) as [Hp Hc].
    cbn in Hall. unfold follows. rewrite calls_app, Hall. split.
    + by apply prefix_app.
    + destruct c; [ by rewrite Hc | done ].
  - destruct (Hm _ _ _ Em) as [Hp _]. split; [ | done ].
    by apply prefix_app_r.
Qed.

Lemma follows_console_log {S} args (s : S) c s' tr :
  console_log args s = (c, s', tr) → follows [] c tr.
Proof. intros [= <- <- <-]. by split. Qed.

Lemma follows_ret {S A} (a : A) (s : S) c s' tr :
  ret a s = (c, s', tr) → follows [] c tr.
Proof. intros [= <- <- <-]. by split. Qed.

Lemma follows_stringify result w c w' tr :
  NoTools.stringify result w = (c, w', tr) → follows [] c tr.
Proof.
  unfold NoTools.stringify.
  destruct (JSON_stringify result); intros [= <- <- <-]; by split.
Qed.

Lemma follows_processQuery v q w c w' tr :
  processQueryOf v q w = (c, w', tr) → follows (plan v (toLowerCase q) q) c tr.
Proof.
  intros (_ & Hp & Hall)%processQuery_follows_plan. split; [ done | ].
  destruct c as [res | e]; [ exact (Hall res eq_refl) | done ].
Qed.

(** Peel the first action off a sequence, given the runs it is to follow. *)
Local Ltac follows_step e1 lem :=
  let H := fresh in
  intros H; refine (follows_bind _ _ _ _ _ _ e1 _ _ _ H); clear H;
  [ intros ???; apply lem | intros ????? ].

Lemma follows_session_loop v queries w c w' tr :
  sessionLoopOf v queries w = (c, w', tr) →
  follows (flat_map (λ q, plan v (toLowerCase q) q) queries) c tr.
Proof.
  revert w c w' tr. induction queries as [|q queries IH]; intros w c w' tr.
  - destruct v; apply follows_ret.
  - specialize (follows_processQuery v q) as Hq.
    destruct v; cbn [sessionLoopOf NoTools.session_loop ToolScript.session_loop flat_map];
      [ follows_step (plan NoToolsScript (toLowerCase q) q) Hq
      | follows_step (plan WithToolsScript (toLowerCase q) q) Hq ];
      (follows_step (@nil (Agent * Input)) (@follows_console_log World));
      (follows_step (@nil (Agent * Input)) follows_stringify);
      (follows_step (@nil (Agent * Input)) (@follows_console_log World));
      (follows_step (@nil (Agent * Input)) (@follows_console_log World));
      apply IH.
Qed.

(** The driver works through its example queries in order, each one by its
    plan: the runs of a session are an initial part of the plans of the
    queries put end to end, and all of them when the session ends normally.
    A query is only started when the one before it has returned and its
    result has been printed. *)
Theorem session_follows_plans v w c w' tr :
  sessionOf v w = (c, w', tr) →
  calls tr `prefix_of` flat_map (λ q, plan v (toLowerCase q) q) (queriesOf v) ∧
  (c = Normal tt →
   calls tr = flat_map (λ q, plan v (toLowerCase q) q) (queriesOf v)).
Proof.
  intros H.
  assert (Hf : follows (flat_map (λ q, plan v (toLowerCase q) q) (queriesOf v)) c tr).
  { revert H. specialize (follows_session_loop v (queriesOf v)) as Hl.
    destruct v; cbn [sessionOf queriesOf sessionLoopOf] in *;
      unfold NoTools.runInteractiveSession, ToolScript.runInteractiveSession;
      repeat (follows_step (@nil (Agent * Input)) (@follows_console_log World));
      apply Hl. }
  destruct Hf as [Hp Hall]. split; [ done | ]. by intros ->.
Qed.

End SessionProperties.

(** ** The tool script: fact tools and driver *)

Section ToolScriptProperties.
Context `{rt : Runtime}.

Lemma quiet_processQuery_tools q w c w' tr :
  WithTools.processQuery WithTools.new_MultiAgentSystem q w = (c, w', tr) → quiet c tr.
Proof.
  intros H. unfold WithTools.processQuery in H.
  exec_in H; repeat run_step H; cbn [app] in H;
    injection H as <- <- <-; by split.
Qed.

(** Peel the first action off a sequence, given that it is quiet. *)
Local Ltac quiet_peel lem :=
  let H := fresh in
  intros H; refine (quiet_bind _ _ _ _ _ _ _ _ H); clear H;
  [ intros ???; apply lem | intros ????? ].

Lemma quiet_session_loop_tools queries w c w' tr :
  ToolScript.session_loop WithTools.new_MultiAgentSystem queries w = (c, w', tr) →
  quiet c tr.
Proof.
  revert w c w' tr. induction queries as [|q queries IH]; intros w c w' tr.
  - apply quiet_ret.
  - cbn [ToolScript.session_loop].
    quiet_peel quiet_processQuery_tools.
    quiet_peel (@quiet_console_log rt World).
    quiet_peel quiet_stringify.
    do 2 (quiet_peel (@quiet_console_log rt World)).
    apply IH.
Qed.

Lemma quiet_main_tools w c w' tr :
  ToolScript.main w = (c, w', tr) → quiet c tr.
Proof.
  unfold ToolScript.main, ToolScript.runInteractiveSession.
  do 3 (quiet_peel (@quiet_console_log rt World)).
  apply quiet_session_loop_tools.
Qed.

(** The tool script has no [try] in [main]: an error leaves [main] as a
    throw and is caught by the [catch] of the statement
    [main().catch(console.error)], which prints the error object once and
    nothing else (no setup instructions), whatever the thrown value is. That
    statement never ends by a throw, and nothing is run after a rejected
    run. *)
Theorem main_catch_reports inspect w :
  ∃ w' tr,
    ToolScript.main_catch inspect w = (Normal tt, w', tr) ∧
    match ToolScript.main w with
    | (Normal _, _, ts) => tr = ts
    | (Throw e, _, ts) => tr = ts ++ [EvError [inspect e]]
    end ∧
    calls (after_rejection tr) = [].
Proof.
  unfold ToolScript.main_catch, try_catch.
  destruct (ToolScript.main w) as [[[[] | e] ws] ts] eqn:Hs;
    apply quiet_main_tools in Hs as [Hq Hc].
  - by exists ws, ts.
  - cbv beta iota delta [console_error]. eexists _, _.
    split; [ reflexivity | split; [ reflexivity | ] ].
    rewrite after_rejection_app.
    destruct (rejected ts); [ by rewrite calls_app, Hq | done ].
Qed.

(** An index computed from a number of the unit interval is within the
    four elements of the array. *)
Lemma element_of_four (facts : list jsstring) (r : QArith_base.Q) :
  List.length facts = 4 →
  QArith_base.Qle (QArith_base.inject_Z 0) r →
  QArith_base.Qlt r (QArith_base.inject_Z 1) →
  ∃ fact, fact ∈ facts ∧
    ToolScript.element facts
      (Qround.Qfloor (QArith_base.Qmult r
         (QArith_base.inject_Z (Z.of_nat (List.length facts)))))
    = Advanced.Str fact.
Proof.
  intros Hlen Hlo Hhi. rewrite Hlen.
  destruct r as [n d]. unfold QArith_base.Qle, QArith_base.Qlt in *.
  cbn in Hlo, Hhi. cbn [Qround.Qfloor QArith_base.Qmult QArith_base.inject_Z
    QArith_base.Qnum QArith_base.Qden].
  change (Z.of_nat 4) with 4%Z.
  set (i := ((n * 4) `div` Z.pos (d * 1))%Z).
  assert (Hi : (0 ≤ i < 4)%Z).
  { subst i. split.
    - apply Z.div_pos; lia.
    - apply Z.div_lt_upper_bound; lia. }
  unfold ToolScript.element. rewrite decide_True by lia.
  destruct facts as [|f0 [|f1 [|f2 [|f3 [|]]]]]; try discriminate Hlen.
  assert (Hcases : Z.to_nat i = 0 ∨ Z.to_nat i = 1 ∨ Z.to_nat i = 2 ∨ Z.to_nat i = 3)
    by lia.
  destruct Hcases as [E | [E | [E | E]]]; rewrite E;
    eexists; (split; [ | reflexivity ]);
    repeat first [ apply list_elem_of_here | apply list_elem_of_further ].
Qed.

(** The fact tools always answer with one of their four facts: whatever
    number of the unit interval the generator yields, the index is within
    the array. The fact is returned bare for an empty topic or field, and
    after "Fun fact about <topic>: " or "Science fact about <field>: "
    otherwise; the tools run no agent and print nothing. *)
Theorem fact_tools_answer_with_a_fact
    (Math_random : World → QArith_base.Q * World) :
  (∀ w, QArith_base.Qle (QArith_base.inject_Z 0) (Math_random w).1 ∧
        QArith_base.Qlt (Math_random w).1 (QArith_base.inject_Z 1)) →
  ∀ subject w,
    (∃ fact, fact ∈ ToolScript.history_facts ∧
       ToolScript.historyFunFact_execute Math_random subject w
       = (Normal (Advanced.Str
                    (match subject with
                     | [] => fact
                     | _ :: _ => js "Fun fact about " ++ subject ++ js ": " ++ fact
                     end)),
          (Math_random w).2, [])) ∧
    (∃ fact, fact ∈ ToolScript.science_facts ∧
       ToolScript.scienceFact_execute Math_random subject w
       = (Normal (Advanced.Str
                    (match subject with
                     | [] => fact
                     | _ :: _ => js "Science fact about " ++ subject ++ js ": " ++ fact
                     end)),
          (Math_random w).2, [])).
Proof.
  intros Hunit subject w. destruct (Hunit w) as [Hlo Hhi].
  unfold ToolScript.historyFunFact_execute, ToolScript.scienceFact_execute,
    ToolScript.randomFact.
  cbv beta iota delta [bind ret].
  destruct (Math_random w) as [r w1]. cbn [fst snd] in *.
  split.
  - destruct (element_of_four ToolScript.history_facts r eq_refl Hlo Hhi)
      as (fact & Hin & ->).
    exists fact. split; [ done | ]. by destruct subject.
  - destruct (element_of_four ToolScript.science_facts r eq_refl Hlo Hhi)
      as (fact & Hin & ->).
    exists fact. split; [ done | ]. by destruct subject.
Qed.

End ToolScriptProperties.

(** ** The collaborative task *)

Section TaskProperties.
Context `{rt : Runtime}.

Lemma Get_manager :
  Advanced.Get (Advanced.agents Advanced.new_AdvancedMultiAgentSystem) (js "manager")
  = Advanced.PAgent Advanced.managerAgent.
Proof. vm_compute. reflexivity. Qed.

Lemma Get_researcher :
  Advanced.Get (Advanced.agents Advanced.new_AdvancedMultiAgentSystem) (js "researcher")
  = Advanced.PAgent Advanced.researchAgent.
Proof. vm_compute. reflexivity. Qed.

Lemma Get_analyst :
  Advanced.Get (Advanced.agents Advanced.new_AdvancedMultiAgentSystem) (js "analyst")
  = Advanced.PAgent Advanced.analysisAgent.
Proof. vm_compute. reflexivity. Qed.

Lemma Get_writer :
  Advanced.Get (Advanced.agents Advanced.new_AdvancedMultiAgentSystem) (js "writer")
  = Advanced.PAgent Advanced.writerAgent.
Proof. vm_compute. reflexivity. Qed.

Lemma Get_researcher_communication :
  Advanced.Get (Advanced.agents AdvancedTask.new_AgentCommunicationExample)
    (js "researcher")
  = Advanced.PAgent Advanced.researchAgent.
Proof. vm_compute. reflexivity. Qed.

Lemma Get_analyst_communication :
  Advanced.Get (Advanced.agents AdvancedTask.new_AgentCommunicationExample)
    (js "analyst")
  = Advanced.PAgent Advanced.analysisAgent.
Proof. vm_compute. reflexivity. Qed.

Lemma Get_writer_communication :
  Advanced.Get (Advanced.agents AdvancedTask.new_AgentCommunicationExample)
    (js "writer")
  = Advanced.PAgent Advanced.writerAgent.
Proof. vm_compute. reflexivity. Qed.

(** Unfold the monad over the heap in [H]. *)
Local Ltac exec_heap H :=
  cbv beta iota delta [bind ret throw console_log await_run
    Advanced.target_run Advanced.world Advanced.sharedMemory] in H.

(** All the ways the runs of [H] can settle. *)
Local Ltac run_task H :=
  unfold AdvancedTask.executeComplexTask, AdvancedTask.demonstrateCommunication,
    AdvancedTask.agent_run in H;
  rewrite ?Get_manager, ?Get_researcher, ?Get_analyst, ?Get_writer,
    ?Get_researcher_communication, ?Get_analyst_communication,
    ?Get_writer_communication in H;
  exec_heap H;
  repeat match type of H with
    | context [run ?a ?i ?w] =>
        let E := fresh "Erun" in
        destruct (run a i w) as [[?r | ?e] ?w] eqn:E; exec_heap H
    end;
  cbn [app] in H.

(** [executeComplexTask] runs manager, researcher, analyst, writer and
    manager again, in this order and one after the other: whatever way it
    ends its runs are an initial part of that plan, and all five when it
    returns. If it throws, what it throws is the reason of the rejected run,
    which is the last thing it did. The shared memory is never touched. *)
Theorem executeComplexTask_sequential task h c h' tr :
  AdvancedTask.executeComplexTask Advanced.new_AdvancedMultiAgentSystem task h
  = (c, h', tr) →
  overlap_free false tr = true ∧
  calls tr `prefix_of` task_plan task ∧
  (∀ res, c = Normal res → calls tr = task_plan task) ∧
  (∀ e, c = Throw e → last tr = Some (EvSettle (Rejected e))) ∧
  Advanced.sharedMemory h' = Advanced.sharedMemory h.
Proof.
  intros H. destruct h as [w0 memory].
  run_task H; injection H as <- <- <-;
    (split; [ reflexivity | ]);
    (split; [ eexists; reflexivity | ]);
    (split; [ intros res' Hres; try discriminate Hres; reflexivity | ]);
    (split; [ intros e' He; try discriminate He; injection He as <-; reflexivity
            | reflexivity ]).
Qed.

(** What [executeComplexTask] returns: the task, the five responses in the
    order of the runs under [plan], [researchResult], [analysisResult],
    [report] and [finalResult], and the shared memory's data and history as
    they were when the task started. *)
Theorem executeComplexTask_result task h res h' tr :
  AdvancedTask.executeComplexTask Advanced.new_AdvancedMultiAgentSystem task h
  = (Normal res, h', tr) →
  exchanges tr
  = zip_with (λ x r, (x.1, x.2, Fulfilled r)) (task_plan task)
      [ AdvancedTask.plan res; AdvancedTask.researchResult res;
        AdvancedTask.analysisResult res; AdvancedTask.report res;
        AdvancedTask.finalResult res ] ∧
  AdvancedTask.task res = task ∧
  AdvancedTask.sharedMemory res = Advanced.data (Advanced.sharedMemory h) ∧
  AdvancedTask.conversationHistory res
  = Advanced.getHistory (Advanced.sharedMemory h).
Proof.
  intros H. destruct h as [w0 memory].
  run_task H; try discriminate H; injection H as <- <- <-.
  repeat split; reflexivity.
Qed.

(** [demonstrateCommunication] runs researcher, analyst and writer, in this
    order and one after the other, on its three fixed messages; the agents
    are addressed directly, so nothing is logged in the shared memory. If it
    throws, what it throws is the reason of the rejected run, which is the
    last thing it did. *)
Theorem demonstrateCommunication_sequential h c h' tr :
  AdvancedTask.demonstrateCommunication AdvancedTask.new_AgentCommunicationExample h
  = (c, h', tr) →
  overlap_free false tr = true ∧
  calls tr `prefix_of` communication_plan ∧
  (c = Normal tt → calls tr = communication_plan) ∧
  (∀ e, c = Throw e → last tr = Some (EvSettle (Rejected e))) ∧
  Advanced.sharedMemory h' = Advanced.sharedMemory h.
Proof.
  intros H. destruct h as [w0 memory].
  run_task H; injection H as <- <- <-;
    (split; [ reflexivity | ]);
    (split; [ eexists; reflexivity | ]);
    (split; [ intros Hres; try discriminate Hres; reflexivity | ]);
    (split; [ intros e' He; try discriminate He; injection He as <-; reflexivity
            | reflexivity ]).
Qed.

End TaskProperties.

(** ** More on the shared memory and the tools *)

Section MoreMemoryProperties.
Context `{rt : Runtime}.
Import Advanced.

Lemma perform_get op w this key :
  get (perform op w this).2 key
  = match op with
    | OpSet k v => if decide (k = key) then v else get this key
    | _ => get this key
    end.
Proof.
  destruct op as [k v | k | a m |]; try done.
  cbn [perform snd]. unfold get, set. cbn [data].
  destruct (decide (k = key)) as [-> | Hne].
  - apply Map_get_set.
  - by apply Map_get_set_ne.
Qed.

(** Last write wins: after any sequence of calls of the four methods,
    [get(key)] returns the value of the last [set] on that key in the
    sequence, and what it returned before the sequence when the key was
    not set in it; [get], [addToHistory] and [getHistory] never change what
    [get] returns. *)
Theorem get_after_calls ops this key :
  get (perform_all ops this) key = value_after ops key (get this key).
Proof.
  revert this. induction ops as [|[op w] ops IH]; intros this; [ done | ].
  cbn [perform_all]. rewrite IH, perform_get.
  by destruct op.
Qed.

Lemma perform_keys_prefix op w this :
  Map_keys (data this) `prefix_of` Map_keys (data (perform op w this).2).
Proof.
  destruct op as [k v | k | a m |]; try done.
  cbn [perform snd set data].
  destruct (decide (k ∈ Map_keys (data this))) as [Hin | Hout].
  - by rewrite Map_keys_set_present.
  - rewrite Map_keys_set_absent by done. by apply prefix_app_r.
Qed.

Lemma perform_all_keys_prefix ops this :
  Map_keys (data this) `prefix_of` Map_keys (data (perform_all ops this)).
Proof.
  revert this. induction ops as [|[op w] ops IH]; intros this; [ done | ].
  cbn [perform_all]. etrans; [ apply perform_keys_prefix | apply IH ].
Qed.

(** The store only grows: no call of a method removes a key or moves it.
    After any sequence of calls the keys there were are still there, in the
    same order and before any new key, and every key that was set in the
    sequence is present. *)
Theorem keys_only_grow ops this :
  Map_keys (data this) `prefix_of` Map_keys (data (perform_all ops this)) ∧
  (∀ k v w, (OpSet k v, w) ∈ ops → k ∈ Map_keys (data (perform_all ops this))).
Proof.
  split; [ apply perform_all_keys_prefix | ].
  revert this. induction ops as [|[op w0] ops IH]; intros this k v w Hin.
  - by apply elem_of_nil in Hin.
  - cbn [perform_all]. apply elem_of_cons in Hin as [[= <- <-] | Hin].
    + destruct (perform_all_keys_prefix ops (perform (OpSet k v) w this).2)
        as [extra ->].
      apply elem_of_app. left. cbn [perform snd set data].
      destruct (decide (k ∈ Map_keys (data this))) as [Hk | Hk].
      * by rewrite Map_keys_set_present.
      * rewrite Map_keys_set_absent by done. apply elem_of_app. right.
        apply list_elem_of_here.
    + by eapply IH.
Qed.

(** A round trip through [access_memory]: after a [write] of a non-empty
    string under a key, a [read] of the key answers with that string, and a
    [read] of any other key answers as it did before the write. *)
Theorem memory_write_then_read h key text :
  text ≠ [] →
  ∃ h1,
    (memoryTool_execute (js "write") key (Str text) h).1.2 = h1 ∧
    (∀ value, memoryTool_execute (js "read") key value h1
              = (Normal (Str (js "Memory value for " ++ dq ++ key ++ dq
                              ++ js ": " ++ text)), h1, [])) ∧
    (∀ key' value, key ≠ key' →
       (memoryTool_execute (js "read") key' value h1).1.1
       = (memoryTool_execute (js "read") key' value h).1.1).
Proof.
  intros Htext. eexists. split; [ reflexivity | ].
  rewrite memoryTool_write. cbn [fst snd]. split.
  - intros value. rewrite memoryTool_read. cbn [sharedMemory].
    unfold get, set. cbn [data]. rewrite Map_get_set.
    unfold or_else. by destruct text.
  - intros key' value Hne. rewrite !memoryTool_read. cbn [fst sharedMemory].
    unfold get, set. cbn [data]. by rewrite Map_get_set_ne.
Qed.

Lemma memoryTool_other_action action key value h :
  action ≠ js "read" → action ≠ js "write" →
  memoryTool_execute action key value h = (Normal Undefined, h, []).
Proof.
  intros Hr Hw. unfold memoryTool_execute. by rewrite !decide_False.
Qed.

(** The edges of [access_memory]. An action that is neither "read" nor
    "write" falls through both tests: the tool returns [undefined] and
    changes nothing. A [write] without a value stores [undefined]: it
    answers that it stored "undefined", and a [read] of the key then
    answers "not found" although the key is present. *)
Theorem memoryTool_edges :
  (∀ action key value h,
     action ≠ js "read" → action ≠ js "write" →
     memoryTool_execute action key value h = (Normal Undefined, h, [])) ∧
  (∀ key h,
     ∃ h1,
       memoryTool_execute (js "write") key Undefined h
       = (Normal (Str (js "Stored " ++ dq ++ js "undefined" ++ dq
                       ++ js " with key " ++ dq ++ key ++ dq)), h1, []) ∧
       key ∈ Map_keys (data (sharedMemory h1)) ∧
       ∀ value, memoryTool_execute (js "read") key value h1
                = (Normal (not_found_message key), h1, [])).
Proof.
  split; [ apply memoryTool_other_action | ].
  intros key h. eexists. split; [ apply memoryTool_write | ].
  cbn [sharedMemory set data]. split.
  - destruct (decide (key ∈ Map_keys (data (sharedMemory h)))) as [Hin | Hout].
    + by rewrite Map_keys_set_present.
    + rewrite Map_keys_set_absent by done. apply elem_of_app. right.
      apply list_elem_of_here.
  - intros value. rewrite memoryTool_read. cbn [sharedMemory].
    unfold get, set. cbn [data]. by rewrite Map_get_set.
Qed.

(** What the tools leave alone. [access_memory] always returns (it never
    throws), runs no agent, prints nothing and leaves the outside world and
    the conversation history as they were; [communicate_with_agent] never
    changes the key-value data. *)
Theorem tools_frame :
  (∀ action key value h,
     ∃ result h1,
       memoryTool_execute action key value h = (Normal result, h1, []) ∧
       world h1 = world h ∧
       conversationHistory (sharedMemory h1) = conversationHistory (sharedMemory h)) ∧
  (∀ targetAgent message agentSystem h,
     data (sharedMemory (communicateTool_execute targetAgent message agentSystem h).1.2)
     = data (sharedMemory h)).
Proof.
  split.
  - intros action key value h.
    destruct (decide (action = js "read")) as [-> | Hr].
    { rewrite memoryTool_read. by eexists _, _. }
    destruct (decide (action = js "write")) as [-> | Hw].
    { rewrite memoryTool_write. by eexists _, _. }
    rewrite memoryTool_other_action by done. by eexists _, _.
  - intros targetAgent message agentSystem h.
    unfold communicateTool_execute, Get.
    destruct (agents agentSystem !! toLowerCase targetAgent) as [a|].
    + cbv beta iota delta [bind ret target_run await_run sharedMemory_addToHistory].
      by destruct (run a (Text message) (world h)) as [[response | e] w1].
    + by case_bool_decide.
Qed.

(** A conversation with a known agent: the agent stored under the
    lowercased name is run once, on the message as given. If the run is
    rejected, the tool throws the reason and logs nothing; if it is
    fulfilled, the tool logs one entry under the name as given (not
    lowercased), stamped with the time after the run. *)
Theorem communicate_with_known_agent targetAgent message agentSystem h a :
  agents agentSystem !! toLowerCase targetAgent = Some a →
  match run a (Text message) (world h) with
  | (Rejected e, w1) =>
      communicateTool_execute targetAgent message agentSystem h
      = (Throw e, {| world := w1; sharedMemory := sharedMemory h |},
         [EvCall a (Text message); EvSettle (Rejected e)])
  | (Fulfilled response, w1) =>
      communicateTool_execute targetAgent message agentSystem h
      = (Normal (js "Response from " ++ targetAgent ++ js ": " ++ ToString response),
         {| world := w1;
            sharedMemory :=
              {| data := data (sharedMemory h);
                 conversationHistory :=
                   conversationHistory (sharedMemory h)
                   ++ [ {| agent := targetAgent;
                           message := Exchange message response;
                           timestamp := Date_toISOString w1 |} ] |} |},
         [EvCall a (Text message); EvSettle (Fulfilled response)])
  end.
Proof.
  intros Hown. unfold communicateTool_execute, Get. rewrite Hown.
  cbv beta iota delta [bind ret target_run await_run sharedMemory_addToHistory].
  by destruct (run a (Text message) (world h)) as [[response | e] w1].
Qed.

(** Target names are matched without regard to case: two names with the
    same lowercased form reach the same agent (or are both unknown), so the
    two calls run the same agent on the same message, leave the same world
    and the same number of history entries, and both return or both throw.
    Only the name written into the answer and into the history entry is the
    one given. *)
Theorem communicate_case_insensitive name1 name2 message agentSystem h :
  toLowerCase name1 = toLowerCase name2 →
  (communicateTool_execute name1 message agentSystem h).2
  = (communicateTool_execute name2 message agentSystem h).2 ∧
  world (communicateTool_execute name1 message agentSystem h).1.2
  = world (communicateTool_execute name2 message agentSystem h).1.2 ∧
  List.length (conversationHistory
                 (sharedMemory (communicateTool_execute name1 message agentSystem h).1.2))
  = List.length (conversationHistory
                   (sharedMemory (communicateTool_execute name2 message agentSystem h).1.2)) ∧
  ((∃ answer, (communicateTool_execute name1 message agentSystem h).1.1 = Normal answer)
   ↔ (∃ answer, (communicateTool_execute name2 message agentSystem h).1.1 = Normal answer)).
Proof.
  intros Hlower. unfold communicateTool_execute, Get. rewrite Hlower.
  destruct (agents agentSystem !! toLowerCase name2) as [a|].
  - cbv beta iota delta [bind ret target_run await_run sharedMemory_addToHistory].
    destruct (run a (Text message) (world h)) as [[response | e] w1];
      cbn [fst snd world sharedMemory conversationHistory addToHistory].
    + rewrite !length_app. repeat split; eauto.
    + repeat split; intros [answer Ha]; discriminate Ha.
  - case_bool_decide; cbv beta iota delta [bind ret throw target_run];
      cbn [fst snd]; repeat split; eauto; intros [answer Ha]; discriminate Ha.
Qed.

End MoreMemoryProperties.

(** ** The theorems at concrete queries *)

Lemma processQuery_history_science_witness :
  (∃ c w' tr,
     processQueryOf (rt := echo_runtime) NoToolsScript
       (js "Give me both a History and science fact") 0 = (c, w', tr) ∧
     rejected tr = false ∧
     ∃ res, c = Normal res ∧
       invoked (js "History Expert") tr ∧
       agentResponses res !! js "history" = Some (js "History Expert") ∧
       agentResponses res !! js "science" = Some (js "Science Expert")) ∧
  (∃ c w' tr,
     processQueryOf (rt := echo_runtime) WithToolsScript
       (js "A scientific question") 0 = (c, w', tr) ∧
     rejected tr = false ∧
     ∃ res, c = Normal res ∧
       invoked (js "Science Expert") tr ∧
       agentResponses res !! js "history" = None ∧
       agentResponses res !! js "science" = Some (js "Science Expert")).
Proof.
  split.
  - eexists _, _, _. split; [ reflexivity | ].
    assert (Hrej : rejected (processQueryOf (rt := echo_runtime) NoToolsScript
                     (js "Give me both a History and science fact") 0).2 = false)
      by (vm_compute; reflexivity).
    split; [ exact Hrej | ].
    destruct (processQuery_history_science (rt := echo_runtime) NoToolsScript
                (js "Give me both a History and science fact") 0 _ _ _ eq_refl Hrej)
      as (res & Hc & Hh & _ & Hkh & Hks & _).
    exists res. split; [ exact Hc | ]. split.
    + apply Hh. left. exists (js "give me both a "), (js " and science fact").
      vm_compute. reflexivity.
    + split; (etrans; [ eassumption | vm_compute; reflexivity ]).
  - eexists _, _, _. split; [ reflexivity | ].
    assert (Hrej : rejected (processQueryOf (rt := echo_runtime) WithToolsScript
                     (js "A scientific question") 0).2 = false)
      by (vm_compute; reflexivity).
    split; [ exact Hrej | ].
    destruct (processQuery_history_science (rt := echo_runtime) WithToolsScript
                (js "A scientific question") 0 _ _ _ eq_refl Hrej)
      as (res & Hc & _ & Hs & Hkh & Hks & _).
    exists res. split; [ exact Hc | ]. split.
    + apply Hs. right. exists (js "a "), (js " question").
      vm_compute. reflexivity.
    + split; (etrans; [ eassumption | vm_compute; reflexivity ]).
Defined.

Lemma processQuery_math_witness :
  (∃ c w' tr,
     processQueryOf (rt := echo_runtime) WithToolsScript
       (js "Calculate 15 * 23") 0 = (c, w', tr) ∧
     rejected tr = false ∧
     ∃ res, c = Normal res ∧
       invoked (js "Math Expert") tr ∧
       agentResponses res !! js "math" = Some (js "Math Expert")) ∧
  (∃ c w' tr,
     processQueryOf (rt := echo_runtime) NoToolsScript
       (js "Route 66") 0 = (c, w', tr) ∧
     rejected tr = false ∧
     ∃ res, c = Normal res ∧
       invoked (js "Math Expert") tr ∧
       agentResponses res !! js "math" = Some (js "Math Expert")).
Proof.
  split.
  - eexists _, _, _. split; [ reflexivity | ].
    assert (Hrej : rejected (processQueryOf (rt := echo_runtime) WithToolsScript
                     (js "Calculate 15 * 23") 0).2 = false)
      by (vm_compute; reflexivity).
    split; [ exact Hrej | ].
    destruct (processQuery_math (rt := echo_runtime) WithToolsScript
                (js "Calculate 15 * 23") 0 _ _ _ eq_refl Hrej)
      as (res & Hc & Hm & Hkm).
    exists res. split; [ exact Hc | ]. split.
    + apply Hm. right. left. exists [], (js " 15 * 23").
      vm_compute. reflexivity.
    + etrans; [ exact Hkm | vm_compute; reflexivity ].
  - eexists _, _, _. split; [ reflexivity | ].
    assert (Hrej : rejected (processQueryOf (rt := echo_runtime) NoToolsScript
                     (js "Route 66") 0).2 = false)
      by (vm_compute; reflexivity).
    split; [ exact Hrej | ].
    destruct (processQuery_math (rt := echo_runtime) NoToolsScript
                (js "Route 66") 0 _ _ _ eq_refl Hrej)
      as (res & Hc & Hm & Hkm).
    exists res. split; [ exact Hc | ]. split.
    + apply Hm. do 3 right. apply regex_digit_test_has_digit.
      vm_compute. reflexivity.
    + etrans; [ exact Hkm | vm_compute; reflexivity ].
Defined.

Lemma processQuery_sequential_witness :
  ∃ c w' tr,
    processQueryOf (rt := flaky_runtime) NoToolsScript
      (js "A history of science") 0 = (c, w', tr) ∧
    c = Throw (mkError (js "Request timed out")) ∧
    calls tr = [ (NoTools.coordinatorAgent, analysisInput (js "A history of science"));
                 (NoTools.historyAgent, Text (js "A history of science")) ] ∧
    calls tr `prefix_of`
      plan NoToolsScript (toLowerCase_ascii (js "A history of science"))
        (js "A history of science").
Proof.
  eexists _, _, _. split; [ reflexivity | ].
  pose proof (processQuery_sequential (rt := flaky_runtime) NoToolsScript
                (js "A history of science") 0 _ _ _ eq_refl) as (_ & _ & _ & Hp & _).
  split; [ reflexivity | ].
  split; [ vm_compute; reflexivity | exact Hp ].
Defined.

Lemma processQuery_answers_witness :
  (∃ c w' tr,
     processQueryOf (rt := echo_runtime) NoToolsScript (js "Hello there") 0
     = (c, w', tr) ∧
     rejected tr = false ∧
     ∃ res, c = Normal res ∧
       agentResponses res = {[ js "coordinator" := js "Coordinator" ]}) ∧
  (∃ c w' tr,
     processQueryOf (rt := counting_runtime) WithToolsScript (js "Hello there") 3
     = (c, w', tr) ∧
     rejected tr = false ∧
     ∃ res, c = Normal res ∧
       agentResponses res = {[ js "coordinator" := 4 ]}).
Proof.
  split.
  - eexists _, _, _. split; [ reflexivity | ].
    assert (Hrej : rejected (processQueryOf (rt := echo_runtime) NoToolsScript
                     (js "Hello there") 0).2 = false)
      by (vm_compute; reflexivity).
    split; [ exact Hrej | ].
    destruct (processQuery_answers (rt := echo_runtime) NoToolsScript
                (js "Hello there") 0 _ _ _ eq_refl Hrej) as (res & Hc & _ & Hfall).
    exists res. split; [ exact Hc | ].
    destruct Hfall as (r & Hlast & Hres).
    + rewrite <- historyMatch_contains. vm_compute. discriminate.
    + rewrite <- scienceMatch_contains. vm_compute. discriminate.
    + rewrite <- mathMatch_contains. vm_compute. discriminate.
    + vm_compute in Hlast. injection Hlast as <-. exact Hres.
  - eexists _, _, _. split; [ reflexivity | ].
    assert (Hrej : rejected (processQueryOf (rt := counting_runtime) WithToolsScript
                     (js "Hello there") 3).2 = false)
      by (vm_compute; reflexivity).
    split; [ exact Hrej | ].
    destruct (processQuery_answers (rt := counting_runtime) WithToolsScript
                (js "Hello there") 3 _ _ _ eq_refl Hrej) as (res & Hc & _ & Hfall).
    exists res. split; [ exact Hc | ].
    destruct Hfall as (r & Hlast & Hres).
    + rewrite <- historyMatch_contains. vm_compute. discriminate.
    + rewrite <- scienceMatch_contains. vm_compute. discriminate.
    + rewrite <- mathMatch_contains. vm_compute. discriminate.
    + vm_compute in Hlast. injection Hlast as <-. exact Hres.
Defined.

Lemma routing_deterministic_witness :
  ∃ res1 res2 w1' w2' tr1 tr2,
    processQueryOf (rt := echo_runtime) NoToolsScript
      (js "Explain how to solve a quadratic equation") 0 = (Normal res1, w1', tr1) ∧
    processQueryOf (rt := counting_runtime) NoToolsScript
      (js "Explain how to solve a quadratic equation") 7 = (Normal res2, w2', tr2) ∧
    dom (agentResponses res1) = dom (agentResponses res2) ∧
    dom (agentResponses res1) = {[ js "math" ]}.
Proof.
  eexists _, _, _, _, _, _.
  split; [ reflexivity | ]. split; [ reflexivity | ].
  pose proof (routing_deterministic echo_runtime counting_runtime NoToolsScript
                (js "Explain how to solve a quadratic equation") 0 7
                _ _ _ _ _ _ eq_refl eq_refl eq_refl) as (Hb & Hd & _).
  split; [ exact Hd | ].
  rewrite Hb. vm_compute. reflexivity.
Defined.

Lemma communicate_constructor_throws_witness :
  toLowerCase (Runtime := echo_runtime) (js "constructor") = js "constructor" ∧
  Advanced.communicateTool_execute (rt := echo_runtime)
    (js "constructor") (js "Any news?") Advanced.new_AdvancedMultiAgentSystem
    fresh_heap
  = (Throw (mkError (js "target.run is not a function")), fresh_heap, []).
Proof.
  split; [ vm_compute; reflexivity | ].
  apply (communicate_constructor_throws (rt := echo_runtime)).
  vm_compute. reflexivity.
Defined.

Lemma processQuery_never_misroutes_witness :
  ∃ c w' tr,
    processQueryOf (rt := flaky_runtime) WithToolsScript
      (js "Some HISTORY, please") 0 = (c, w', tr) ∧
    c = Throw (mkError (js "Request timed out")) ∧
    invoked (js "History Expert") tr ∧
    (contains (toLowerCase_ascii (js "Some HISTORY, please")) (js "history")
     ∨ contains (toLowerCase_ascii (js "Some HISTORY, please")) (js "historical")).
Proof.
  eexists _, _, _. split; [ reflexivity | ].
  pose proof (processQuery_never_misroutes (rt := flaky_runtime) WithToolsScript
                (js "Some HISTORY, please") 0 _ _ _ eq_refl) as (Hh & _ & _).
  split; [ reflexivity | ].
  assert (Hin : invoked (R := jsstring) (js "History Expert")
                  (processQueryOf (rt := flaky_runtime) WithToolsScript
                     (js "Some HISTORY, please") 0).2).
  { exists WithTools.historyAgent, (Obj (js "topic") (js "Some HISTORY, please")).
    split; [ | reflexivity ]. vm_compute. apply list_elem_of_further, list_elem_of_here. }
  split; [ exact Hin | exact (Hh Hin) ].
Defined.

Lemma processQuery_returns_witness :
  (∀ a i w0, ∃ r w1, run (Runtime := counting_runtime) a i w0 = (Fulfilled r, w1)) ∧
  ∃ res w' tr,
    processQueryOf (rt := counting_runtime) NoToolsScript
      (js "What's an interesting science fact?") 3 = (Normal res, w', tr).
Proof.
  assert (Hall : ∀ a i w0, ∃ r w1,
            run (Runtime := counting_runtime) a i w0 = (Fulfilled r, w1))
    by (intros a i w0; eexists _, _; reflexivity).
  split; [ exact Hall | ].
  exact (processQuery_returns (rt := counting_runtime) NoToolsScript
           (js "What's an interesting science fact?") 3 Hall).
Defined.

Lemma communicate_unknown_target_witness :
  Advanced.agents Advanced.new_AdvancedMultiAgentSystem
    !! toLowerCase (Runtime := echo_runtime) (js "Editor") = None ∧
  ∃ c, Advanced.communicateTool_execute (rt := echo_runtime)
         (js "Editor") (js "Draft it") Advanced.new_AdvancedMultiAgentSystem fresh_heap
       = (c, fresh_heap, []).
Proof.
  assert (Hown : Advanced.agents Advanced.new_AdvancedMultiAgentSystem
                   !! toLowerCase (Runtime := echo_runtime) (js "Editor") = None)
    by (vm_compute; reflexivity).
  split; [ exact Hown | ].
  destruct (communicate_unknown_target (rt := echo_runtime) (js "Editor")
              (js "Draft it") Advanced.new_AdvancedMultiAgentSystem fresh_heap Hown)
    as (c & Hc & _).
  by exists c.
Defined.

Lemma communicate_appends_on_success_witness :
  ∃ c h' tr,
    Advanced.communicateTool_execute (rt := echo_runtime)
      (js "Writer") (js "Draft it") Advanced.new_AdvancedMultiAgentSystem fresh_heap
    = (c, h', tr) ∧
    Advanced.agents Advanced.new_AdvancedMultiAgentSystem
      !! toLowerCase (Runtime := echo_runtime) (js "Writer")
    = Some Advanced.writerAgent ∧
    run (Runtime := echo_runtime) Advanced.writerAgent (Text (js "Draft it"))
      (Advanced.world fresh_heap)
    = (Fulfilled (js "Writer"), 1) ∧
    c = Normal (js "Response from " ++ js "Writer" ++ js ": " ++ js "Writer") ∧
    tr = [EvCall Advanced.writerAgent (Text (js "Draft it"));
          EvSettle (Fulfilled (js "Writer"))] ∧
    Advanced.conversationHistory (Advanced.sharedMemory h')
    = Advanced.conversationHistory (Advanced.sharedMemory fresh_heap)
      ++ [ @Advanced.Build_HistoryEntry echo_runtime (js "Writer")
             (@Advanced.Exchange echo_runtime (js "Draft it") (js "Writer"))
             (js "2025-01-01T00:00:00.000Z") ].
Proof.
  eexists _, _, _. split; [ reflexivity | ].
  assert (Hown : Advanced.agents Advanced.new_AdvancedMultiAgentSystem
                   !! toLowerCase (Runtime := echo_runtime) (js "Writer")
                 = Some Advanced.writerAgent)
    by (vm_compute; reflexivity).
  split; [ exact Hown | ]. split; [ reflexivity | ].
  destruct (communicate_appends_on_success (rt := echo_runtime) (js "Writer")
              (js "Draft it") Advanced.new_AdvancedMultiAgentSystem fresh_heap
              _ _ _ eq_refl) as (_ & _ & Hdoes).
  destruct (Hdoes Advanced.writerAgent (js "Writer") 1 Hown eq_refl)
    as (Hc & Htr & _ & _ & Hlog).
  split; [ exact Hc | ]. split; [ exact Htr | exact Hlog ].
Defined.

Lemma main_throws_on_messageless_witness :
  (∃ ts,
     NoTools.runInteractiveSession (rt := reasonless_runtime)
       NoTools.new_MultiAgentSystem 0 = (Throw (Nullish false), 1, ts) ∧
     NoTools.main (rt := reasonless_runtime) 0
     = (Throw (mkError (js "Cannot read properties of undefined (reading 'message')")),
        1, ts)) ∧
  (∃ ts,
     NoTools.runInteractiveSession (rt := stringly_runtime)
       NoTools.new_MultiAgentSystem 0 = (Throw Messageless, 1, ts) ∧
     NoTools.main (rt := stringly_runtime) 0
     = (Throw (mkError (js "Cannot read properties of undefined (reading 'includes')")),
        1, ts ++ [EvError [cross ++ js " Error:"; js "undefined"]])).
Proof.
  split.
  - eexists. split; [ reflexivity | ].
    exact (proj1 (main_throws_on_messageless (rt := reasonless_runtime) 0 _ _)
             false eq_refl).
  - eexists. split; [ reflexivity | ].
    exact (proj2 (main_throws_on_messageless (rt := stringly_runtime) 0 _ _)
             eq_refl).
Defined.

Lemma main_catches_and_reports_witness :
  ∃ ts,
    NoTools.runInteractiveSession (rt := keyless_runtime)
      NoTools.new_MultiAgentSystem 0
    = (Throw (mkError (js "The OPENAI_API_KEY environment variable is missing")), 1, ts) ∧
    ∃ tr,
      NoTools.main (rt := keyless_runtime) 0 = (Normal tt, 1, tr) ∧
      tr = ts ++ error_line (rt := keyless_runtime)
                   (js "The OPENAI_API_KEY environment variable is missing")
              :: setup_instructions (rt := keyless_runtime).
Proof.
  eexists. split; [ reflexivity | ].
  destruct (proj1 (proj2 (main_catches_and_reports (rt := keyless_runtime) 0))
              _ _ _ eq_refl) as (tr & Hmain & Hkey & _).
  exists tr. split; [ exact Hmain | ].
  apply Hkey. exists (js "The "), (js " environment variable is missing").
  vm_compute. reflexivity.
Defined.

(** ** The scripts on concrete inputs *)

(** Without an API key the first run is rejected: [main] prints the error
    and the setup instructions, and returns. *)
Example main_without_key :
  NoTools.main (rt := keyless_runtime) 0
  = (Normal tt, 1,
     [ EvLog [robot ++ js " Multi-Agent System Started!"];
       EvLog [js "Available agents: History Expert, Science Expert, Math Expert, Coordinator"];
       EvLog [js "Note: This version runs without tools due to SDK compatibility issues"];
       EvLog [js "Type " ++ dq ++ js "exit" ++ dq ++ js " to quit" ++ nl];
       EvLog [nl ++ robot ++ js " Processing query: " ++ dq
              ++ js "Tell me a fun history fact" ++ dq];
       EvCall NoTools.coordinatorAgent (analysisInput (js "Tell me a fun history fact"));
       EvSettle (Rejected (mkError (js "The OPENAI_API_KEY environment variable is missing")));
       EvError [cross ++ js " Error:";
                js "The OPENAI_API_KEY environment variable is missing"];
       EvLog [nl ++ bulb ++ js " To run this example, you need to set your OpenAI API key:"];
       EvLog [js "export OPENAI_API_KEY=" ++ dq ++ js "your-api-key-here" ++ dq];
       EvLog [js "Or create a .env file with: OPENAI_API_KEY=your-api-key-here"] ]).
Proof. vm_compute. reflexivity. Qed.

(** Another failure is printed without the instructions; here the first
    query is abandoned at its second run and the other queries never start. *)
Example main_on_timeout :
  (NoTools.main (rt := flaky_runtime) 0).1.1 = Normal tt ∧
  calls (NoTools.main (rt := flaky_runtime) 0).2
  = [ (NoTools.coordinatorAgent, analysisInput (js "Tell me a fun history fact"));
      (NoTools.historyAgent, Text (js "Tell me a fun history fact")) ] ∧
  last (NoTools.main (rt := flaky_runtime) 0).2
  = Some (EvError [cross ++ js " Error:"; js "Request timed out"]).
Proof. repeat split; vm_compute; reflexivity. Qed.

(** The four example queries of the driver fall into these buckets. *)
Example exampleQueries_buckets :
  (λ q, elements (buckets (toLowerCase_ascii q) q)) <$> NoTools.exampleQueries
  = [ [js "history"]; [js "science"]; [js "math"]; [js "history"; js "science"] ]
  ∨ (λ q, elements (buckets (toLowerCase_ascii q) q)) <$> NoTools.exampleQueries
  = [ [js "history"]; [js "science"]; [js "math"]; [js "science"; js "history"] ].
Proof. vm_compute. tauto. Qed.

(** Writing twice under one key keeps one entry; reading the empty string
    back reports the key as missing. *)
Example memory_tool_session :
  let h0 := fresh_heap in
  let h1 := (Advanced.memoryTool_execute (js "write") (js "topic")
               (Advanced.Str (js "tides")) h0).1.2 in
  let h2 := (Advanced.memoryTool_execute (js "write") (js "topic")
               (Advanced.Str []) h1).1.2 in
  (Advanced.memoryTool_execute (js "read") (js "topic") Advanced.Undefined h1).1.1
  = Normal (Advanced.Str (js "Memory value for " ++ dq ++ js "topic" ++ dq
                          ++ js ": tides")) ∧
  Advanced.Map_keys (Advanced.data (Advanced.sharedMemory h2)) = [js "topic"] ∧
  (Advanced.memoryTool_execute (js "read") (js "topic") Advanced.Undefined h2).1.1
  = Normal (not_found_message (js "topic")).
Proof. repeat split; vm_compute; reflexivity. Qed.

(** A known agent is run and the exchange is logged; an unknown plain name
    is reported and nothing is logged. *)
Example communicate_session :
  let h0 := fresh_heap in
  let known := Advanced.communicateTool_execute (js "Writer") (js "Draft it")
                 Advanced.new_AdvancedMultiAgentSystem h0 in
  let unknown := Advanced.communicateTool_execute (js "Editor") (js "Draft it")
                   Advanced.new_AdvancedMultiAgentSystem h0 in
  known.1.1 = Normal (js "Response from Writer: Writer") ∧
  Advanced.getHistory (Advanced.sharedMemory known.1.2)
  = [ @Advanced.Build_HistoryEntry echo_runtime (js "Writer")
        (@Advanced.Exchange echo_runtime (js "Draft it") (js "Writer"))
        (js "2025-01-01T00:00:00.000Z") ] ∧
  unknown = (Normal (js "Error: Agent " ++ dq ++ js "Editor" ++ dq ++ js " not found"),
             h0, []).
Proof. repeat split; vm_compute; reflexivity. Qed.

(** ** The further theorems at concrete inputs *)

Lemma processQuery_error_propagates_witness :
  ∃ e w' tr,
    processQueryOf (rt := flaky_runtime) NoToolsScript (js "Solve 2 + 2") 0
    = (Throw e, w', tr) ∧
    e = mkError (js "Request timed out") ∧
    last tr = Some (EvSettle (Rejected e)).
Proof.
  eexists _, _, _. split; [ reflexivity | ].
  split; [ reflexivity | ].
  exact (proj1 (processQuery_error_propagates (rt := flaky_runtime) NoToolsScript
                  (js "Solve 2 + 2") 0 _ _ _ eq_refl)).
Defined.

Lemma processQuery_result_shape_witness :
  ∃ res w' tr,
    processQueryOf (rt := counting_runtime) WithToolsScript
      (js "The science and history of math") 5 = (Normal res, w', tr) ∧
    coordinatorAnalysis res = 5 ∧
    List.length (calls tr) = S (size (agentResponses res)) ∧
    size (agentResponses res) = 3.
Proof.
  eexists _, _, _. split; [ reflexivity | ].
  split; [ reflexivity | ].
  split; [ | vm_compute; reflexivity ].
  exact (proj1 (proj2 (proj2
           (processQuery_result_shape (rt := counting_runtime) WithToolsScript
              (js "The science and history of math") 5 _ _ _ eq_refl)))).
Defined.

Lemma session_follows_plans_witness :
  ∃ c w' tr,
    sessionOf (rt := echo_runtime) NoToolsScript 0 = (c, w', tr) ∧
    c = Normal tt ∧
    calls tr
    = flat_map (λ q, plan NoToolsScript (toLowerCase_ascii q) q)
        NoTools.exampleQueries ∧
    List.length (calls tr) = 9.
Proof.
  eexists _, _, _. split; [ reflexivity | ].
  split; [ reflexivity | ].
  pose proof (proj2 (session_follows_plans (rt := echo_runtime) NoToolsScript
                       0 _ _ _ eq_refl) eq_refl) as Hcalls.
  split; [ exact Hcalls | ].
  vm_compute. reflexivity.
Defined.

Lemma fact_tools_answer_with_a_fact_witness :
  (∀ w, QArith_base.Qle (QArith_base.inject_Z 0) (steady_random w).1 ∧
        QArith_base.Qlt (steady_random w).1 (QArith_base.inject_Z 1)) ∧
  ToolScript.historyFunFact_execute (rt := echo_runtime) steady_random
    (js "the Anglo-Zanzibar War") 0
  = (Normal (@Advanced.Str echo_runtime
               (js "Fun fact about the Anglo-Zanzibar War: The shortest war in history lasted only 38 minutes.")),
     1, []) ∧
  ∃ fact, fact ∈ ToolScript.science_facts ∧
    ToolScript.scienceFact_execute (rt := echo_runtime) steady_random [] 0
    = (Normal (@Advanced.Str echo_runtime fact), 1, []).
Proof.
  assert (Hunit : ∀ w, QArith_base.Qle (QArith_base.inject_Z 0) (steady_random w).1 ∧
                       QArith_base.Qlt (steady_random w).1 (QArith_base.inject_Z 1)).
  { intros w. split; vm_compute; [ discriminate | reflexivity ]. }
  split; [ exact Hunit | ].
  split; [ vm_compute; reflexivity | ].
  exact (proj2 (fact_tools_answer_with_a_fact (rt := echo_runtime) steady_random
                  Hunit [] 0)).
Defined.

Lemma executeComplexTask_sequential_witness :
  ∃ c h' tr,
    AdvancedTask.executeComplexTask (rt := echo_runtime)
      Advanced.new_AdvancedMultiAgentSystem (js "Compare two tide tables") fresh_heap
    = (c, h', tr) ∧
    calls tr = task_plan (js "Compare two tide tables") ∧
    Advanced.sharedMemory h' = Advanced.sharedMemory fresh_heap.
Proof.
  eexists _, _, _. split; [ reflexivity | ].
  pose proof (executeComplexTask_sequential (rt := echo_runtime)
                (js "Compare two tide tables") fresh_heap _ _ _ eq_refl)
    as (_ & _ & Hall & _ & Hmem).
  split; [ exact (Hall _ eq_refl) | exact Hmem ].
Defined.

Lemma executeComplexTask_result_witness :
  ∃ res h' tr,
    AdvancedTask.executeComplexTask (rt := echo_runtime)
      Advanced.new_AdvancedMultiAgentSystem (js "Compare two tide tables") fresh_heap
    = (Normal res, h', tr) ∧
    AdvancedTask.task res = js "Compare two tide tables" ∧
    AdvancedTask.plan res = js "Manager" ∧
    AdvancedTask.report res = js "Writer" ∧
    AdvancedTask.sharedMemory res = [] ∧
    AdvancedTask.conversationHistory res = [].
Proof.
  eexists _, _, _. split; [ reflexivity | ].
  pose proof (executeComplexTask_result (rt := echo_runtime)
                (js "Compare two tide tables") fresh_heap _ _ _ eq_refl)
    as (_ & Htask & Hmem & Hlog).
  split; [ exact Htask | ].
  split; [ reflexivity | ].
  split; [ reflexivity | ].
  split; [ exact Hmem | exact Hlog ].
Defined.

Lemma demonstrateCommunication_sequential_witness :
  ∃ c h' tr,
    AdvancedTask.demonstrateCommunication (rt := echo_runtime)
      AdvancedTask.new_AgentCommunicationExample fresh_heap = (c, h', tr) ∧
    c = Normal tt ∧
    calls tr = communication_plan ∧
    Advanced.sharedMemory h' = Advanced.sharedMemory fresh_heap.
Proof.
  eexists _, _, _. split; [ reflexivity | ].
  pose proof (demonstrateCommunication_sequential (rt := echo_runtime)
                fresh_heap _ _ _ eq_refl) as (_ & _ & Hall & _ & Hmem).
  split; [ reflexivity | ].
  split; [ exact (Hall eq_refl) | exact Hmem ].
Defined.

Lemma memory_write_then_read_witness :
  js "tides" ≠ [] ∧
  ∃ h1,
    (Advanced.memoryTool_execute (rt := echo_runtime) (js "write") (js "topic")
       (Advanced.Str (js "tides")) fresh_heap).1.2 = h1 ∧
    Advanced.memoryTool_execute (rt := echo_runtime) (js "read") (js "topic")
      Advanced.Undefined h1
    = (Normal (Advanced.Str (js "Memory value for " ++ dq ++ js "topic" ++ dq
                             ++ js ": " ++ js "tides")), h1, []).
Proof.
  assert (Htext : js "tides" ≠ []) by (vm_compute; discriminate).
  split; [ exact Htext | ].
  destruct (memory_write_then_read (rt := echo_runtime) fresh_heap (js "topic")
              (js "tides") Htext) as (h1 & Hh1 & Hread & _).
  exists h1. split; [ exact Hh1 | apply Hread ].
Defined.

Lemma communicate_with_known_agent_witness :
  Advanced.agents Advanced.new_AdvancedMultiAgentSystem
    !! toLowerCase (Runtime := echo_runtime) (js "ANALYST")
  = Some Advanced.analysisAgent ∧
  ∃ h1,
    Advanced.communicateTool_execute (rt := echo_runtime) (js "ANALYST")
      (js "Any trend?") Advanced.new_AdvancedMultiAgentSystem fresh_heap
    = (Normal (js "Response from " ++ js "ANALYST" ++ js ": " ++ js "Analyst"), h1,
       [EvCall Advanced.analysisAgent (Text (js "Any trend?"));
        EvSettle (Fulfilled (js "Analyst"))]).
Proof.
  assert (Hown : Advanced.agents Advanced.new_AdvancedMultiAgentSystem
                   !! toLowerCase (Runtime := echo_runtime) (js "ANALYST")
                 = Some Advanced.analysisAgent)
    by (vm_compute; reflexivity).
  split; [ exact Hown | ].
  eexists.
  exact (communicate_with_known_agent (rt := echo_runtime) (js "ANALYST")
           (js "Any trend?") Advanced.new_AdvancedMultiAgentSystem fresh_heap
           Advanced.analysisAgent Hown).
Defined.

Lemma communicate_case_insensitive_witness :
  toLowerCase (Runtime := echo_runtime) (js "Writer")
  = toLowerCase (Runtime := echo_runtime) (js "WRITER") ∧
  (Advanced.communicateTool_execute (rt := echo_runtime) (js "Writer")
     (js "Draft it") Advanced.new_AdvancedMultiAgentSystem fresh_heap).2
  = (Advanced.communicateTool_execute (rt := echo_runtime) (js "WRITER")
       (js "Draft it") Advanced.new_AdvancedMultiAgentSystem fresh_heap).2 ∧
  (Advanced.communicateTool_execute (rt := echo_runtime) (js "WRITER")
     (js "Draft it") Advanced.new_AdvancedMultiAgentSystem fresh_heap).1.1
  = Normal (js "Response from WRITER: Writer").
Proof.
  assert (Hlower : toLowerCase (Runtime := echo_runtime) (js "Writer")
                   = toLowerCase (Runtime := echo_runtime) (js "WRITER"))
    by (vm_compute; reflexivity).
  split; [ exact Hlower | ].
  split; [ | vm_compute; reflexivity ].
  exact (proj1 (communicate_case_insensitive (rt := echo_runtime) (js "Writer")
                  (js "WRITER") (js "Draft it")
                  Advanced.new_AdvancedMultiAgentSystem fresh_heap Hlower)).
Defined.
